(** * llm-qa: the question normalizer and the answer requester

    A shallow embedding of the two entry points of the repository,
    [LLM_QA_CLI.py] (console) and [app.py] (Flask form handler), and of the
    Python built-ins they call.

    Python [str] values are sequences of Unicode code points; they are
    modelled as [list N].  The dictionaries of the source ([str.maketrans]
    tables, the form of a request, the template context) are [gmap]s. *)

From stdpp Require Import gmap strings list fin_maps.
From Stdlib Require Import NArith Ascii.

Local Open Scope N_scope.

Abbreviation pystr := (list N).

(** An ASCII literal of the source as a Python string. *)
Definition py (s : string) : pystr :=
  N_of_ascii <$> String.list_ascii_of_string s.

(** ** Python built-ins used by the repository *)
Module Py.

(** [Py_UNICODE_ISSPACE]: the characters [str.split()] and [str.strip()]
    treat as whitespace. *)
Definition isspace (c : N) : bool :=
  ((0x09 <=? c) && (c <=? 0x0D)) || ((0x1C <=? c) && (c <=? 0x20))
  || (c =? 0x85) || (c =? 0xA0) || (c =? 0x1680)
  || ((0x2000 <=? c) && (c <=? 0x200A))
  || (c =? 0x2028) || (c =? 0x2029) || (c =? 0x202F) || (c =? 0x205F)
  || (c =? 0x3000).

(** [string.punctuation]. *)
Definition punctuation : pystr :=
  [33; 34; 35; 36; 37; 38; 39; 40; 41; 42; 43; 44; 45; 46; 47;
   58; 59; 60; 61; 62; 63; 64; 91; 92; 93; 94; 95; 96; 123; 124; 125; 126].

Definition is_ascii_upper (c : N) : bool := (65 <=? c) && (c <=? 90).

(** The case tables of the Unicode character database, which the
    interpreter consults outside ASCII: the full lower-case mapping of a
    code point ([_PyUnicode_ToLowerFull]) and the [Cased] and
    [Case_Ignorable] properties. *)
Class CaseTables := {
  tolower_ext : N → pystr;
  is_cased : N → bool;
  is_case_ignorable : N → bool
}.

Section Lower.
Context {tbl : CaseTables}.

Definition ascii_tolower (c : N) : N :=
  if is_ascii_upper c then c + 32 else c.

Definition to_lower_full (c : N) : pystr :=
  if c <? 128 then [ascii_tolower c] else tolower_ext c.

(** The first character of [l] that is not case-ignorable. *)
Fixpoint first_relevant (l : pystr) : option N :=
  match l with
  | [] => None
  | c :: r => if is_case_ignorable c then first_relevant r else Some c
  end.

(** [handle_capital_sigma]: U+03A3 becomes a final sigma when a cased
    letter precedes it and none follows (case-ignorable characters
    skipped on both sides).  [before] is the text to the left of the
    sigma, nearest character first. *)
Definition handle_capital_sigma (before after : pystr) : N :=
  let final_sigma :=
    match first_relevant before with
    | Some c => is_cased c
    | None => false
    end in
  let final_sigma :=
    if final_sigma then
      match first_relevant after with
      | Some c => negb (is_cased c)
      | None => true
      end
    else false in
  if final_sigma then 0x3C2 else 0x3C3.

Definition lower_ucs4 (before : pystr) (c : N) (after : pystr) : pystr :=
  if c =? 0x3A3 then [handle_capital_sigma before after]
  else to_lower_full c.

Fixpoint do_lower (before s : pystr) : pystr :=
  match s with
  | [] => []
  | c :: r => lower_ucs4 before c r ++ do_lower (c :: before) r
  end.

(** [s.lower()] *)
Definition lower (s : pystr) : pystr := do_lower [] s.
End Lower.

(** [str.maketrans(x, y, z)]: code points of [x] go to those of [y], and
    every code point of [z] goes to [None].  (Python requires [x] and [y]
    of equal length; the repository passes two empty strings.) *)
Definition maketrans (x y z : pystr) : gmap N (option N) :=
  foldl (λ m c, <[c := None]> m) (list_to_map (zip x (Some <$> y))) z.

(** [s.translate(table)]: a character mapped to [None] is deleted, a
    mapped one replaced, one without an entry kept. *)
Definition translate_char (table : gmap N (option N)) (c : N) : pystr :=
  match table !! c with
  | Some None => []
  | Some (Some c') => [c']
  | None => [c]
  end.

Definition translate (table : gmap N (option N)) (s : pystr) : pystr :=
  s ≫= translate_char table.

(** [s.split()]: the maximal runs of non-whitespace characters.  [cur]
    is the token being scanned, last character first. *)
Definition flush (cur : pystr) : list pystr :=
  match cur with
  | [] => []
  | _ => [reverse cur]
  end.

Fixpoint split_from (cur s : pystr) : list pystr :=
  match s with
  | [] => flush cur
  | c :: r =>
      if isspace c then flush cur ++ split_from [] r
      else split_from (c :: cur) r
  end.

Definition split (s : pystr) : list pystr := split_from [] s.

(** [sep.join(parts)] *)
Fixpoint join (sep : pystr) (parts : list pystr) : pystr :=
  match parts with
  | [] => []
  | [p] => p
  | p :: rest => p ++ sep ++ join sep rest
  end.

(** [s.strip()] *)
Fixpoint lstrip (s : pystr) : pystr :=
  match s with
  | [] => []
  | c :: r => if isspace c then lstrip r else s
  end.

Definition rstrip (s : pystr) : pystr := reverse (lstrip (reverse s)).

Definition strip (s : pystr) : pystr := rstrip (lstrip s).

(** [sub in s] *)
Definition contains (sub s : pystr) : Prop :=
  ∃ pre post, s = pre ++ sub ++ post.

End Py.

(** A small table for worked examples: Latin-1 and Greek capitals, and the
    dotted capital I, the one code point whose lower case is two. *)
Definition sample_tolower (c : N) : pystr :=
  if ((0xC0 <=? c) && (c <=? 0xDE) && negb (c =? 0xD7))
     || ((0x391 <=? c) && (c <=? 0x3A9) && negb (c =? 0x3A2))
  then [c + 32]
  else if c =? 0x130 then [0x69; 0x307]
  else [c].

Definition sample_cased (c : N) : bool :=
  ((65 <=? c) && (c <=? 90)) || ((97 <=? c) && (c <=? 122))
  || ((0xC0 <=? c) && (c <=? 0xFF) && negb (c =? 0xD7) && negb (c =? 0xF7))
  || ((0x391 <=? c) && (c <=? 0x3C9) && negb (c =? 0x3A2)).

Definition sample_case_ignorable (c : N) : bool :=
  (c =? 39) || (c =? 46) || (c =? 58) || (c =? 94) || (c =? 96)
  || (c =? 0xAD) || (c =? 0x307).

Definition sample_tables : Py.CaseTables :=
  {| Py.tolower_ext := sample_tolower;
     Py.is_cased := sample_cased;
     Py.is_case_ignorable := sample_case_ignorable |}.

(** ** Effects: exceptions, the completion service, the console *)

(** The exceptions a call can raise: the SDK's [APIError], any other
    instance of Python's [Exception], and the exceptions that are not
    instances of [Exception] ([KeyboardInterrupt], [SystemExit],
    [GeneratorExit]).  [message] is the string form [str(e)], which the
    f-strings of the source interpolate. *)
Inductive exn :=
| APIError (message : pystr)
| OtherException (message : pystr)
| NonException (message : pystr).

Definition str_of_exn (e : exn) : pystr :=
  match e with
  | APIError m => m
  | OtherException m => m
  | NonException m => m
  end.

Definition isinstance_APIError (e : exn) : bool :=
  match e with
  | APIError _ => true
  | OtherException _ => false
  | NonException _ => false
  end.

Definition isinstance_Exception (e : exn) : bool :=
  match e with
  | APIError _ => true
  | OtherException _ => true
  | NonException _ => false
  end.

Inductive result (A : Type) :=
| Ret (a : A)
| Raise (e : exn).
Arguments Ret {A} a.
Arguments Raise {A} e.

(** The arguments of [client.models.generate_content] and the part of its
    response the code reads. *)
Record GenerateContentRequest := {
  model : pystr;
  contents : pystr;
  system_instruction : pystr
}.

Record GenerateContentResponse := { text : pystr }.

(** A client is what answers a request: a response or an exception. *)
Definition Client : Type := GenerateContentRequest → result GenerateContentResponse.

(** What a run can observe and change: the lines waiting on standard input,
    the chunks written to standard output, and the requests sent to the
    service, in order. *)
Record world := {
  stdin : list pystr;
  stdout : list pystr;
  calls : list GenerateContentRequest
}.

Definition IO (A : Type) : Type := world → result A * world.

#[global] Instance IO_ret : MRet IO := λ A a w, (Ret a, w).

#[global] Instance IO_bind : MBind IO := λ A B f m w,
  match m w with
  | (Ret a, w') => f a w'
  | (Raise e, w') => (Raise e, w')
  end.

Definition raise {A} (e : exn) : IO A := λ w, (Raise e, w).

(** A call into the SDK that touches nothing of the world, such as the
    constructor [genai.Client(...)]: its outcome is returned or raised. *)
Definition call {A} (outcome : result A) : IO A := λ w, (outcome, w).

(** [exit()] raises [SystemExit(None)]. *)
Definition exit {A} : IO A := raise (NonException (py "None")).

(** [try: body except C1 as e: h1 except C2 as e: h2 ...]: the first clause
    whose class the exception is an instance of handles it. *)
Fixpoint dispatch {A} (clauses : list ((exn → bool) * (exn → IO A))) (e : exn)
  : IO A :=
  match clauses with
  | [] => raise e
  | (isinstance, handler) :: rest =>
      if isinstance e then handler e else dispatch rest e
  end.

Definition try_except {A} (body : IO A)
    (clauses : list ((exn → bool) * (exn → IO A))) : IO A := λ w,
  match body w with
  | (Ret a, w') => (Ret a, w')
  | (Raise e, w') => dispatch clauses e w'
  end.

Definition newline : pystr := [10].

(** [print(s)] *)
Definition print (s : pystr) : IO unit := λ w,
  (Ret (), {| stdin := stdin w; stdout := stdout w ++ [s ++ newline];
              calls := calls w |}).

(** [input(prompt)]: writes the prompt, reads one line; [EOFError] when
    there is none. *)
Definition input (prompt : pystr) : IO pystr := λ w,
  let out := stdout w ++ [prompt] in
  match stdin w with
  | line :: rest =>
      (Ret line, {| stdin := rest; stdout := out; calls := calls w |})
  | [] =>
      (Raise (OtherException (py "EOF when reading a line")),
       {| stdin := []; stdout := out; calls := calls w |})
  end.

(** [client.models.generate_content(...)]: the one outbound call. *)
Definition generate_content (client : Client) (req : GenerateContentRequest)
  : IO GenerateContentResponse := λ w,
  (client req, {| stdin := stdin w; stdout := stdout w;
                  calls := calls w ++ [req] |}).

(** Truth value of [os.getenv(...)]: [None] and the empty string are false. *)
Definition truthy (v : option pystr) : bool :=
  match v with
  | Some (_ :: _) => true
  | _ => false
  end.

(** ** [LLM_QA_CLI.py] *)
Module CLI.

Definition basic_preprocess {tbl : Py.CaseTables} (text : pystr) : pystr :=
  let text := Py.lower text in
  let text := Py.translate (Py.maketrans [] [] Py.punctuation) text in
  let tokens := Py.split text in
  let processed_text := Py.join (py " ") tokens in
  processed_text.

Definition get_answer_from_llm (client : Client) (question : pystr)
  : IO pystr :=
  let system_instruction :=
    py "You are a helpful and concise Question-Answering system. Answer the user's question directly and professionally." in
  try_except
    (response ← generate_content client
       {| model := py "gemini-2.5-flash";
          contents := question;
          system_instruction := system_instruction |};
     mret (text response))
    [ (isinstance_APIError,
       λ e, mret (py "An API Error occurred: " ++ str_of_exn e));
      (isinstance_Exception,
       λ e, mret (py "An unexpected error occurred: " ++ str_of_exn e)) ].

Definition main {tbl : Py.CaseTables} (client : Client) : IO unit :=
  print (py "--- LLM Q&A Command-Line Interface ---");;
  user_question ← input (newline ++ py "Enter your question: ");
  match Py.strip user_question with
  | [] => print (py "No question entered. Exiting.")
  | _ =>
      let processed_q := basic_preprocess user_question in
      print (newline ++ py "Original Question: " ++ user_question);;
      print (py "Preprocessed Text: " ++ processed_q);;
      print (newline ++ py "Sending question to LLM...");;
      llm_answer ← get_answer_from_llm client user_question;
      print (newline ++ py "==================================");;
      print ([0x1F916] ++ py " Final LLM Answer:");;
      print llm_answer;;
      print (py "==================================")
  end.

(** The module body run as a script: without a credential, or when
    building the client raises an [Exception], it prints an error and
    [exit()]s; otherwise it runs [main] with the client it built.
    [genai_Client] is the SDK's constructor. *)
Definition script {tbl : Py.CaseTables}
    (genai_Client : pystr → result Client) (API_KEY : option pystr)
  : IO unit :=
  if truthy API_KEY then
    client ←
      try_except (call (genai_Client (default [] API_KEY)))
        [ (isinstance_Exception,
           λ e, print (py "Error initializing Gemini client: " ++ str_of_exn e);;
                exit) ];
    main client
  else
    print (py "Error: GEMINI_API_KEY not found. Please set it in a .env file.");;
    exit.

End CLI.

(** ** [app.py] *)
Module App.

(** The page returned by the handler is the rendering of a template with
    a context; the template file is not among the modelled sources, so a
    page is represented by the call that renders it. *)
Inductive Page :=
| render_template (name : string) (context : gmap string (option pystr)).

Record HttpRequest := {
  method : string;
  form : gmap string pystr
}.

Definition str_of_bool (b : bool) : pystr :=
  if b then py "True" else py "False".

(** Module initialisation: the global [client] is [None] unless the
    credential is set and the SDK's constructor succeeds; an exception of
    the constructor that is not an [Exception] is not caught. *)
Definition init_client (genai_Client : pystr → result Client)
    (API_KEY : option pystr) : IO (option Client) :=
  print (py "DEBUG 1: Flask app instance created.");;
  print (py "DEBUG 2: API_KEY loaded: " ++ str_of_bool (truthy API_KEY));;
  if truthy API_KEY then
    try_except
      (client ← call (genai_Client (default [] API_KEY));
       print (py "DEBUG 3: Gemini Client initialized successfully.");;
       mret (Some client))
      [ (isinstance_Exception,
         λ e, print (py "DEBUG 3 FAILED: Error initializing Gemini client: "
                     ++ str_of_exn e);;
              mret None) ]
  else
    print (py "WARNING: GEMINI_API_KEY not set. API calls will fail.");;
    mret None.

Definition basic_preprocess {tbl : Py.CaseTables} (text : pystr) : pystr :=
  let text := Py.lower text in
  let text := Py.translate (Py.maketrans [] [] Py.punctuation) text in
  let tokens := Py.split text in
  let processed_text := Py.join (py " ") tokens in
  processed_text.

Definition get_llm_response (client : option Client) (question : pystr)
  : IO pystr :=
  match client with
  | None =>
      mret (py "ERROR: LLM Client failed to initialize. Check GEMINI_API_KEY setting.")
  | Some client =>
      let system_instruction :=
        py "You are a helpful and concise Question-Answering system. Answer the user's question directly and professionally." in
      try_except
        (response ← generate_content client
           {| model := py "gemini-2.5-flash";
              contents := question;
              system_instruction := system_instruction |};
         mret (text response))
        [ (isinstance_APIError,
           λ e, mret (py "An API Error occurred: " ++ str_of_exn e));
          (isinstance_Exception,
           λ e, mret (py "An unexpected error occurred: " ++ str_of_exn e)) ]
  end.

(** The handler of the route ['/'], for GET and POST. *)
Definition index {tbl : Py.CaseTables} (client : option Client)
    (request : HttpRequest) : IO Page :=
  let context : gmap string (option pystr) :=
    {[ "user_question" := Some [];
       "original_question" := Some [];
       "processed_question" := Some [];
       "answer" := None ]} in
  context ←
    (if bool_decide (method request = "POST") then
       let user_question :=
         Py.strip (default [] (form request !! "question")) in
       match user_question with
       | _ :: _ =>
           let context := <["original_question" := Some user_question]> context in
           let processed_q := basic_preprocess user_question in
           let context := <["processed_question" := Some processed_q]> context in
           llm_answer ← get_llm_response client user_question;
           let context := <["answer" := Some llm_answer]> context in
           let context := <["user_question" := Some user_question]> context in
           mret context
       | [] =>
           mret (<["answer" := Some (py "Please enter a question.")]> context)
       end
     else mret context);
  mret (render_template "index.html" context).

End App.

(** ** The Normalizer as the specification words it *)
Module Spec.

(** (b) removing every character classified as standard punctuation *)
Definition remove_punctuation (s : pystr) : pystr :=
  filter (λ c, c ∉ Py.punctuation) s.

(** (c) splitting on whitespace: the tokens of [s], defined directly on
    the text.  A non-whitespace character starts a token of its own when
    the text ends or whitespace follows, and otherwise joins the token
    that starts right after it. *)
Fixpoint tokens (s : pystr) : list pystr :=
  match s with
  | [] => []
  | c :: r =>
      if Py.isspace c then tokens r
      else
        match r with
        | [] => [[c]]
        | d :: _ =>
            if Py.isspace d then [c] :: tokens r
            else
              match tokens r with
              | t :: ts => (c :: t) :: ts
              | [] => [[c]]
              end
        end
  end.

Definition collapse_whitespace (s : pystr) : pystr :=
  Py.join [32] (tokens s).

Definition Normalizer {tbl : Py.CaseTables} (s : pystr) : pystr :=
  collapse_whitespace (remove_punctuation (Py.lower s)).

End Spec.

(** ** Properties of texts and of case tables used in the statements *)

(** A token: not empty, and free of whitespace. *)
Definition is_token (t : pystr) : Prop :=
  t ≠ [] ∧ Forall (λ c, Py.isspace c = false) t.

(** [s] is empty or consists of whitespace only. *)
Definition blank (s : pystr) : bool := forallb Py.isspace s.

(** Lower-casing is stable under the case tables: whatever the extended
    table produces is neither U+03A3 nor changed by lower-casing again, and
    the two small sigmas are left alone.  The tables of the Unicode
    character database have this property. *)
Definition lowercase_stable (tbl : Py.CaseTables) : Prop :=
  (∀ c c', 128 ≤ c → c' ∈ Py.tolower_ext c →
     c' ≠ 0x3A3 ∧ Py.to_lower_full c' = [c'])
  ∧ Py.tolower_ext 0x3C2 = [0x3C2]
  ∧ Py.tolower_ext 0x3C3 = [0x3C3].

(** A character lower-casing leaves alone, wherever it stands. *)
Definition settled {tbl : Py.CaseTables} (c : N) : Prop :=
  c ≠ 0x3A3 ∧ Py.to_lower_full c = [c].

(** No two whitespace characters stand next to each other in [s]. *)
Definition no_adjacent_whitespace (s : pystr) : Prop :=
  ∀ i c d, s !! i = Some c → s !! S i = Some d →
    ¬ (Py.isspace c = true ∧ Py.isspace d = true).

(** The same, as a scan that remembers whether the previous character was
    whitespace. *)
Fixpoint spaced (prev_space : bool) (s : pystr) : bool :=
  match s with
  | [] => true
  | c :: r => negb (prev_space && Py.isspace c) && spaced (Py.isspace c) r
  end.

(** Stub services for worked examples. *)
Definition stub_paris : Client :=
  λ _, Ret {| text := py "Paris is the capital of France." |}.

Definition stub_rate_limited : Client :=
  λ _, Raise (APIError (py "rate limited")).

Definition stub_broken : Client :=
  λ _, Raise (OtherException (py "connection reset")).

(** A service call interrupted from the keyboard: [KeyboardInterrupt()]. *)
Definition stub_interrupted : Client :=
  λ _, Raise (NonException []).

Definition quiet_world : world :=
  {| stdin := []; stdout := []; calls := [] |}.

(** The request the Answer Requester sends for a question. *)
Definition request_for (question : pystr) : GenerateContentRequest :=
  {| model := py "gemini-2.5-flash";
     contents := question;
     system_instruction :=
       py "You are a helpful and concise Question-Answering system. Answer the user's question directly and professionally." |}.

Definition sent (w : world) (req : GenerateContentRequest) : world :=
  {| stdin := stdin w; stdout := stdout w; calls := calls w ++ [req] |}.

Definition printed (w : world) (chunks : list pystr) : world :=
  {| stdin := stdin w; stdout := stdout w ++ chunks; calls := calls w |}.

(** What the Answer Requester makes of an outcome of the service call: the
    text it hands back, or the exception it lets through. *)
Definition answer_for_outcome (o : result GenerateContentResponse)
  : result pystr :=
  match o with
  | Ret response => Ret (text response)
  | Raise (APIError m) => Ret (py "An API Error occurred: " ++ m)
  | Raise (OtherException m) => Ret (py "An unexpected error occurred: " ++ m)
  | Raise (NonException m) => Raise (NonException m)
  end.

(** The value of the form field [question], empty when absent. *)
Definition question_field (request : App.HttpRequest) : pystr :=
  default [] (App.form request !! "question").

(** The context the handler starts from. *)
Definition default_context : gmap string (option pystr) :=
  {[ "user_question" := Some [];
     "original_question" := Some [];
     "processed_question" := Some [];
     "answer" := None ]}.

(** The context the handler renders after an answered question [q]. *)
Definition answered_context {tbl : Py.CaseTables} (q answer : pystr)
  : gmap string (option pystr) :=
  <["user_question" := Some q]>
    (<["answer" := Some answer]>
       (<["processed_question" := Some (App.basic_preprocess q)]>
          (<["original_question" := Some q]> default_context))).

Abbreviation nonspace := (λ c : N, Py.isspace c = false).

(** The text [rest] is at a token boundary: it is empty or starts with
    whitespace. *)
Definition at_boundary (rest : pystr) : Prop :=
  match rest with
  | [] => True
  | c :: _ => Py.isspace c = true
  end.

(** "ΟΔΟΣ,  İstanbul!" with a tab and a no-break space in it. *)
Definition sample_text : pystr :=
  [0x39F; 0x394; 0x39F; 0x3A3; 44; 9; 0xA0; 0x130] ++ py "stanbul! OK".

(** A POST of the form with the given [question] field. *)
Definition post (field : pystr) : App.HttpRequest :=
  {| App.method := "POST"; App.form := {[ "question" := field ]} |}.

(** A table that sends every code point outside ASCII to "x". *)
Definition crude_tables : Py.CaseTables :=
  {| Py.tolower_ext := λ _, [120];
     Py.is_cased := λ _, true;
     Py.is_case_ignorable := λ _, false |}.

(** Case analysis on comparisons of code points. *)
Ltac N_cases :=
  repeat match goal with
  | |- context [N.leb ?a ?b] => destruct (N.leb_spec a b)
  | |- context [N.ltb ?a ?b] => destruct (N.ltb_spec a b)
  | |- context [N.eqb ?a ?b] => destruct (N.eqb_spec a b)
  | H : context [N.leb ?a ?b] |- _ => destruct (N.leb_spec a b)
  | H : context [N.ltb ?a ?b] |- _ => destruct (N.ltb_spec a b)
  | H : context [N.eqb ?a ?b] |- _ => destruct (N.eqb_spec a b)
  end; simpl in *; try done; try lia.

Ltac bool_to_prop :=
  rewrite ?orb_true_iff, ?orb_false_iff, ?andb_true_iff, ?andb_false_iff,
    ?negb_true_iff, ?negb_false_iff, ?N.leb_le, ?N.leb_gt, ?N.eqb_eq,
    ?N.eqb_neq, ?N.ltb_lt, ?N.ltb_ge in *.

(** * Facts about the built-ins *)

Lemma isspace_space : Py.isspace 32 = true.
Proof. reflexivity. Qed.

Lemma punctuation_not_space c : c ∈ Py.punctuation → Py.isspace c = false.
Proof.
  unfold Py.punctuation. rewrite !elem_of_cons, elem_of_nil.
  intros H. repeat (destruct H as [-> | H]; [reflexivity |]). done.
Qed.

Lemma space_not_punctuation : 32 ∉ Py.punctuation.
Proof. intros H. apply punctuation_not_space in H. done. Qed.

(** ** [translate] with a deletion table is a filter *)

Lemma maketrans_delete_lookup (z : pystr) (c : N) :
  Py.maketrans [] [] z !! c = if decide (c ∈ z) then Some None else None.
Proof.
  unfold Py.maketrans. simpl.
  change (list_to_map []) with (∅ : gmap N (option N)).
  assert (G : ∀ (m : gmap N (option N)),
    foldl (λ m c, <[c := None]> m) m z !! c
    = if decide (c ∈ z) then Some None else m !! c).
  { induction z as [| a z IH]; intros m.
    - cbn [foldl]. case_decide as Hin; [by apply elem_of_nil in Hin | done].
    - cbn [foldl]. rewrite IH.
      destruct (decide (c ∈ z)) as [Hin | Hnin].
      + rewrite decide_True by (by right). done.
      + destruct (decide (a = c)) as [-> | Hne].
        * rewrite decide_True by left. apply lookup_insert_eq.
        * rewrite decide_False by (rewrite elem_of_cons; intros [? | ?]; done).
          by rewrite lookup_insert_ne. }
  rewrite G. by rewrite lookup_empty.
Qed.

Lemma translate_delete (z s : pystr) :
  Py.translate (Py.maketrans [] [] z) s = filter (λ c, c ∉ z) s.
Proof.
  unfold Py.translate. induction s as [| c s IH]; [done |].
  rewrite bind_cons, IH, filter_cons. unfold Py.translate_char.
  rewrite maketrans_delete_lookup.
  destruct (decide (c ∈ z)); [rewrite decide_False by tauto | rewrite decide_True by done];
    done.
Qed.

Lemma remove_punctuation_id s :
  Forall (λ c, c ∉ Py.punctuation) s → Spec.remove_punctuation s = s.
Proof.
  unfold Spec.remove_punctuation.
  induction 1 as [| c s Hc Hs IH]; [done |].
  by rewrite filter_cons_True, IH.
Qed.

(** ** Splitting on whitespace *)

Lemma py_space : py " " = [32].
Proof. reflexivity. Qed.

Lemma reverse_token a cur :
  Forall nonspace (a :: cur) → is_token (reverse (a :: cur)).
Proof.
  intros Hcur. split.
  - intros E. apply (f_equal length) in E.
    rewrite length_reverse in E. simpl in E. lia.
  - rewrite Forall_forall in *. intros x Hx. apply Hcur.
    by rewrite elem_of_reverse in Hx.
Qed.

Lemma flush_tokens cur : Forall nonspace cur → Forall is_token (Py.flush cur).
Proof.
  intros Hcur. destruct cur as [| c cur]; [constructor |].
  cbn [Py.flush]. apply Forall_singleton. by apply reverse_token.
Qed.

Lemma split_from_tokens s : ∀ cur,
  Forall nonspace cur → Forall is_token (Py.split_from cur s).
Proof.
  induction s as [| c s IH]; intros cur Hcur; simpl.
  - by apply flush_tokens.
  - destruct (Py.isspace c) eqn:Hc.
    + apply Forall_app. split; [by apply flush_tokens | apply IH; constructor].
    + apply IH. by constructor.
Qed.

Lemma split_tokens s : Forall is_token (Py.split s).
Proof. apply split_from_tokens. constructor. Qed.

Lemma split_from_elem s : ∀ cur t c,
  t ∈ Py.split_from cur s → c ∈ t → c ∈ cur ∨ c ∈ s.
Proof.
  assert (Hflush : ∀ cur t c, t ∈ Py.flush cur → c ∈ t → c ∈ cur).
  { intros [| a cur] t c Ht Hc; simpl in Ht.
    - by apply elem_of_nil in Ht.
    - apply list_elem_of_singleton in Ht. subst t.
      by rewrite elem_of_reverse in Hc. }
  induction s as [| a s IH]; intros cur t c Ht Hc; simpl in Ht.
  - left. eauto.
  - destruct (Py.isspace a).
    + apply elem_of_app in Ht as [Ht | Ht]; [left; eauto |].
      destruct (IH _ _ _ Ht Hc) as [Hnil | Hin].
      * by apply elem_of_nil in Hnil.
      * right. by right.
    + destruct (IH _ _ _ Ht Hc) as [Hcur | Hin].
      * apply elem_of_cons in Hcur as [-> | Hcur]; [right; left | by left].
      * right. by right.
Qed.

Lemma split_elem s t c : t ∈ Py.split s → c ∈ t → c ∈ s.
Proof.
  intros Ht Hc. destruct (split_from_elem s [] t c Ht Hc) as [H | H]; [| done].
  by apply elem_of_nil in H.
Qed.

Lemma tokens_cons c r :
  Spec.tokens (c :: r) =
    if Py.isspace c then Spec.tokens r
    else match r with
         | [] => [[c]]
         | d :: _ =>
             if Py.isspace d then [c] :: Spec.tokens r
             else match Spec.tokens r with
                  | t :: ts => (c :: t) :: ts
                  | [] => [[c]]
                  end
         end.
Proof. reflexivity. Qed.

Lemma tokens_token_app t rest :
  is_token t → at_boundary rest →
  Spec.tokens (t ++ rest) = t :: Spec.tokens rest.
Proof.
  intros [Hne Hns] Hb. destruct t as [| c t]; [done |]. clear Hne.
  revert c Hns. induction t as [| d t IH]; intros c Hns.
  - apply Forall_cons in Hns as [Hc _].
    cbn [app]. rewrite tokens_cons, Hc.
    destruct rest as [| e rest]; [done |].
    simpl in Hb. by rewrite Hb.
  - apply Forall_cons in Hns as [Hc Hns].
    pose proof Hns as Hns'. apply Forall_cons in Hns' as [Hd _].
    change ((c :: d :: t) ++ rest) with (c :: ((d :: t) ++ rest)).
    rewrite tokens_cons, Hc. cbn [app]. rewrite Hd.
    change (d :: t ++ rest) with ((d :: t) ++ rest).
    by rewrite (IH d Hns).
Qed.

Lemma tokens_of_token t : is_token t → Spec.tokens t = [t].
Proof.
  intros Ht. rewrite <- (app_nil_r t) at 1.
  by rewrite tokens_token_app.
Qed.

(** The scanner of [split] computes the tokens of the text: the token
    under way, followed by the rest. *)
Lemma split_from_tokens_eq s : ∀ cur,
  Forall nonspace cur → Py.split_from cur s = Spec.tokens (reverse cur ++ s).
Proof.
  induction s as [| c s IH]; intros cur Hcur.
  - rewrite app_nil_r. destruct cur as [| a cur]; [done |].
    cbn [Py.split_from Py.flush]. symmetry.
    apply tokens_of_token. by apply reverse_token.
  - simpl. destruct (Py.isspace c) eqn:Hc.
    + rewrite (IH [] (Forall_nil_2 _)). rewrite reverse_nil. cbn [app].
      destruct cur as [| a cur].
      * rewrite reverse_nil. cbn [app Py.flush]. by rewrite tokens_cons, Hc.
      * rewrite tokens_token_app; [| by apply reverse_token | exact Hc].
        cbn [Py.flush app]. by rewrite tokens_cons, Hc.
    + rewrite IH by (by constructor).
      by rewrite reverse_cons, <- app_assoc.
Qed.

Lemma split_tokens_eq s : Py.split s = Spec.tokens s.
Proof. unfold Py.split. by rewrite split_from_tokens_eq. Qed.

(** ** Joining *)

Lemma join_cons sep p rest :
  Py.join sep (p :: rest) =
    match rest with
    | [] => p
    | _ => p ++ sep ++ Py.join sep rest
    end.
Proof. by destruct rest. Qed.

Lemma elem_of_join c sep ts :
  c ∈ Py.join sep ts → c ∈ sep ∨ ∃ t, t ∈ ts ∧ c ∈ t.
Proof.
  induction ts as [| t ts IH]; intros Hc.
  - by apply elem_of_nil in Hc.
  - rewrite join_cons in Hc. destruct ts as [| t' ts].
    + right. exists t. split; [left | done].
    + apply elem_of_app in Hc as [Hc | Hc].
      { right. exists t. split; [left | done]. }
      apply elem_of_app in Hc as [Hc | Hc]; [by left |].
      destruct (IH Hc) as [Hs | (u & Hu & Hcu)]; [by left |].
      right. exists u. split; [by right | done].
Qed.

(** Splitting a join of tokens gives the tokens back. *)
Lemma tokens_join ts :
  Forall is_token ts → Spec.tokens (Py.join [32] ts) = ts.
Proof.
  induction 1 as [| t ts Ht Hts IH]; [done |].
  rewrite join_cons. destruct ts as [| t' ts].
  - by apply tokens_of_token.
  - rewrite tokens_token_app by done.
    cbn [app]. rewrite tokens_cons, isspace_space. by rewrite IH.
Qed.

(** ** The shape of a join of tokens *)

Lemma spaced_lookup s : ∀ b, spaced b s = true → no_adjacent_whitespace s.
Proof.
  induction s as [| a s IH]; intros b Hs i c d Hc Hd; [done |].
  simpl in Hs. apply andb_prop in Hs as [_ Hs].
  destruct i as [| i].
  - simpl in Hc. injection Hc as ->.
    destruct s as [| e s]; [done |]. simpl in Hd. injection Hd as ->.
    simpl in Hs. apply andb_prop in Hs as [Hs _].
    intros [Hc' Hd']. by rewrite Hc', Hd' in Hs.
  - by apply (IH _ Hs i c d).
Qed.

Lemma spaced_token_app t rest b :
  is_token t → spaced b (t ++ rest) = spaced false rest.
Proof.
  intros [Hne Hns]. revert b. induction Hns as [| c t Hc Hns IH]; [done |].
  intros b. cbn [app spaced]. rewrite Hc, andb_false_r. cbn [negb andb].
  destruct t as [| d t]; [done |]. by apply IH.
Qed.

Lemma spaced_join ts : Forall is_token ts → ∀ b, spaced b (Py.join [32] ts) = true.
Proof.
  induction 1 as [| t ts Ht Hts IH]; intros b; [done |].
  rewrite join_cons. destruct ts as [| t' ts].
  - rewrite <- (app_nil_r t). by rewrite spaced_token_app.
  - rewrite spaced_token_app by done. cbn [app spaced].
    rewrite isspace_space. cbn [andb negb]. apply IH.
Qed.

Lemma head_join ts c :
  Forall is_token ts → head (Py.join [32] ts) = Some c → Py.isspace c = false.
Proof.
  intros Hts Hc. destruct Hts as [| t ts [Hne Hns] Hts]; [done |].
  rewrite join_cons in Hc. destruct t as [| a t]; [done |].
  apply Forall_cons in Hns as [Ha _].
  destruct ts; simpl in Hc; by injection Hc as <-.
Qed.

Lemma last_token t c : is_token t → last t = Some c → Py.isspace c = false.
Proof.
  intros [_ Hns] Hc. rewrite Forall_forall in Hns.
  apply Hns. by apply last_Some_elem_of.
Qed.

Lemma last_join ts c :
  Forall is_token ts → last (Py.join [32] ts) = Some c → Py.isspace c = false.
Proof.
  induction 1 as [| t ts Ht Hts IH]; [done |].
  rewrite join_cons. destruct ts as [| t' ts].
  - by apply last_token.
  - rewrite app_assoc, last_app.
    destruct (last (Py.join [32] (t' :: ts))) as [e |] eqn:He.
    + intros [= <-]. by apply IH.
    + apply last_None in He. apply (f_equal Spec.tokens) in He.
      by rewrite tokens_join in He.
Qed.

(** ** Lower-casing *)

Section LowerFacts.
Context {tbl : Py.CaseTables}.

Lemma ascii_settled c : c < 128 → settled (Py.ascii_tolower c).
Proof.
  intros Hc. unfold settled, Py.to_lower_full, Py.ascii_tolower, Py.is_ascii_upper.
  split.
  - N_cases.
  - N_cases; f_equal; lia.
Qed.

Lemma settled_space : settled 32.
Proof. by apply (ascii_settled 32). Qed.

Lemma settled_not_upper c : settled c → Py.is_ascii_upper c = false.
Proof.
  intros [_ H]. revert H.
  unfold Py.to_lower_full, Py.ascii_tolower, Py.is_ascii_upper.
  N_cases. intros [= E]. lia.
Qed.

Lemma do_lower_settled s : ∀ before, Forall settled s → Py.do_lower before s = s.
Proof.
  induction s as [| c s IH]; intros before Hs; [done |].
  apply Forall_cons in Hs as [[Hc1 Hc2] Hs].
  cbn [Py.do_lower]. unfold Py.lower_ucs4.
  destruct (N.eqb_spec c 0x3A3) as [E | _]; [done |].
  by rewrite Hc2, IH.
Qed.

Lemma sigma_settled before after :
  lowercase_stable tbl → settled (Py.handle_capital_sigma before after).
Proof.
  intros (_ & Hfinal & Hsmall). unfold Py.handle_capital_sigma.
  repeat case_match; (split; [done | exact Hfinal || exact Hsmall]).
Qed.

Lemma lower_ucs4_settled before c after :
  lowercase_stable tbl → Forall settled (Py.lower_ucs4 before c after).
Proof.
  intros Hst. unfold Py.lower_ucs4.
  destruct (N.eqb_spec c 0x3A3) as [_ | Hc].
  - apply Forall_singleton. by apply sigma_settled.
  - unfold Py.to_lower_full. destruct (N.ltb_spec c 128) as [Hlt | Hge].
    + apply Forall_singleton. by apply ascii_settled.
    + apply Forall_forall. intros c' Hc'.
      destruct Hst as (Hext & _). by apply (Hext c).
Qed.

(** Whatever [lower] returns is left alone by lower-casing. *)
Lemma do_lower_outputs s : ∀ before,
  lowercase_stable tbl → Forall settled (Py.do_lower before s).
Proof.
  induction s as [| c s IH]; intros before Hst; [constructor |].
  cbn [Py.do_lower]. apply Forall_app. split.
  - by apply lower_ucs4_settled.
  - by apply IH.
Qed.

End LowerFacts.

(** * The Normalizer *)

Section Normalizer.
Context {tbl : Py.CaseTables}.

Lemma basic_preprocess_unfold s :
  CLI.basic_preprocess s
  = Py.join [32] (Spec.tokens (Spec.remove_punctuation (Py.lower s))).
Proof.
  unfold CLI.basic_preprocess. cbv zeta.
  by rewrite translate_delete, split_tokens_eq, py_space.
Qed.

Lemma app_basic_preprocess_unfold s :
  App.basic_preprocess s
  = Py.join [32] (Spec.tokens (Spec.remove_punctuation (Py.lower s))).
Proof.
  unfold App.basic_preprocess. cbv zeta.
  by rewrite translate_delete, split_tokens_eq, py_space.
Qed.

Lemma tokens_are_tokens s : Forall is_token (Spec.tokens s).
Proof. rewrite <- split_tokens_eq. apply split_tokens. Qed.

(** A character of the normalized text is the joining space or a
    character of the lower-cased text that is not punctuation. *)
Lemma normalized_elem s c :
  c ∈ CLI.basic_preprocess s →
  c = 32 ∨ (c ∈ Py.lower s ∧ c ∉ Py.punctuation).
Proof.
  rewrite basic_preprocess_unfold. intros Hc.
  apply elem_of_join in Hc as [Hc | (t & Ht & Hc)].
  - left. by apply list_elem_of_singleton in Hc.
  - right. rewrite <- split_tokens_eq in Ht.
    pose proof (split_elem _ _ _ Ht Hc) as Hin.
    apply list_elem_of_filter in Hin as [Hnp Hin]. done.
Qed.

Lemma normalized_fixed s :
  lowercase_stable tbl →
  CLI.basic_preprocess (CLI.basic_preprocess s) = CLI.basic_preprocess s.
Proof.
  intros Hst.
  assert (Hlow : Py.lower (CLI.basic_preprocess s) = CLI.basic_preprocess s).
  { apply do_lower_settled. apply Forall_forall. intros c Hc.
    apply normalized_elem in Hc as [-> | [Hc _]]; [apply settled_space |].
    pose proof (do_lower_outputs s [] Hst) as Hout.
    rewrite Forall_forall in Hout. by apply Hout. }
  assert (Hpun : Spec.remove_punctuation (CLI.basic_preprocess s)
                 = CLI.basic_preprocess s).
  { apply remove_punctuation_id. apply Forall_forall. intros c Hc.
    apply normalized_elem in Hc as [-> | [_ Hc]]; [apply space_not_punctuation | done]. }
  rewrite (basic_preprocess_unfold (CLI.basic_preprocess s)).
  rewrite Hlow, Hpun.
  rewrite (basic_preprocess_unfold s) at 1.
  rewrite tokens_join by apply tokens_are_tokens.
  by rewrite basic_preprocess_unfold.
Qed.
End Normalizer.

Lemma sample_tolower_fixed c :
  128 ≤ c →
  ((0xC0 <=? c) && (c <=? 0xDE) && negb (c =? 0xD7))
    || ((0x391 <=? c) && (c <=? 0x3A9) && negb (c =? 0x3A2)) = false →
  c ≠ 0x130 →
  @Py.to_lower_full sample_tables c = [c].
Proof.
  intros Hc E Hne. unfold Py.to_lower_full.
  replace (c <? 128) with false by (symmetry; apply N.ltb_ge; lia).
  cbn [Py.tolower_ext sample_tables]. unfold sample_tolower.
  rewrite E. by replace (c =? 0x130) with false by (symmetry; by apply N.eqb_neq).
Qed.

Lemma sample_tables_stable : lowercase_stable sample_tables.
Proof.
  split; [| split; reflexivity].
  intros c c' Hc Hin. cbn [Py.tolower_ext sample_tables] in Hin.
  unfold sample_tolower in Hin.
  destruct (((0xC0 <=? c) && (c <=? 0xDE) && negb (c =? 0xD7))
            || ((0x391 <=? c) && (c <=? 0x3A9) && negb (c =? 0x3A2))) eqn:E.
  - apply list_elem_of_singleton in Hin. subst c'.
    assert (Hr : (0xE0 ≤ c + 32 ∧ c + 32 ≤ 0xFE) ∨ (0x3B1 ≤ c + 32 ∧ c + 32 ≤ 0x3C9)).
    { bool_to_prop. lia. }
    clear E. split; [lia |].
    apply sample_tolower_fixed; [lia | | lia].
    bool_to_prop. lia.
  - destruct (N.eqb_spec c 0x130) as [-> | Hne].
    + apply elem_of_cons in Hin as [-> | Hin]; [done |].
      apply list_elem_of_singleton in Hin. by subst c'.
    + apply list_elem_of_singleton in Hin. subst c'.
      split; [| by apply sample_tolower_fixed].
      intros ->. done.
Qed.

(** * Trimming *)

Lemma blank_Forall s : blank s = true ↔ Forall (λ c, Py.isspace c = true) s.
Proof.
  unfold blank. induction s as [| c s IH]; simpl.
  - split; [constructor | done].
  - rewrite andb_true_iff, Forall_cons, IH. done.
Qed.

Lemma blank_reverse s : blank (reverse s) = true ↔ blank s = true.
Proof. by rewrite !blank_Forall, Forall_reverse. Qed.

Lemma lstrip_nil_iff s : Py.lstrip s = [] ↔ blank s = true.
Proof.
  unfold blank. induction s as [| c s IH]; simpl; [done |].
  destruct (Py.isspace c); simpl; [done |]. split; done.
Qed.

Lemma lstrip_blank_iff s : blank (Py.lstrip s) = true ↔ blank s = true.
Proof.
  unfold blank. induction s as [| c s IH]; simpl; [done |].
  destruct (Py.isspace c) eqn:Hc; simpl; [done |]. by rewrite Hc.
Qed.

(** [s.strip()] is empty exactly when [s] is empty or whitespace only. *)
Lemma strip_nil_iff s : Py.strip s = [] ↔ blank s = true.
Proof.
  unfold Py.strip, Py.rstrip.
  rewrite <- lstrip_blank_iff, <- blank_reverse, <- lstrip_nil_iff.
  split; [| by intros ->].
  intros E. apply (f_equal reverse) in E. by rewrite reverse_involutive in E.
Qed.

Lemma strip_not_blank s : blank s = false → ∃ c r, Py.strip s = c :: r.
Proof.
  intros Hb. destruct (Py.strip s) as [| c r] eqn:E; [| eauto].
  apply strip_nil_iff in E. congruence.
Qed.

(** * The Answer Requester *)

Lemma get_answer_from_llm_run client question w :
  CLI.get_answer_from_llm client question w
  = (answer_for_outcome (client (request_for question)),
     sent w (request_for question)).
Proof.
  unfold CLI.get_answer_from_llm, try_except, mbind, IO_bind, generate_content.
  fold (request_for question). fold (sent w (request_for question)).
  destruct (client (request_for question)) as [r | [m | m | m]]; reflexivity.
Qed.

Lemma get_llm_response_run client question w :
  App.get_llm_response (Some client) question w
  = (answer_for_outcome (client (request_for question)),
     sent w (request_for question)).
Proof.
  unfold App.get_llm_response, try_except, mbind, IO_bind, generate_content.
  fold (request_for question). fold (sent w (request_for question)).
  destruct (client (request_for question)) as [r | [m | m | m]]; reflexivity.
Qed.

Lemma answer_for_outcome_raise o e :
  answer_for_outcome o = Raise e ↔ o = Raise e ∧ isinstance_Exception e = false.
Proof.
  destruct o as [r | [m | m | m]]; cbn [answer_for_outcome]; split;
    try done; try (by intros [[= <-] ?]).
  by intros [= <-].
Qed.

Lemma get_llm_response_no_client question w :
  App.get_llm_response None question w
  = (Ret (py "ERROR: LLM Client failed to initialize. Check GEMINI_API_KEY setting."), w).
Proof. reflexivity. Qed.

(** * The console entry point *)

Lemma main_run {tbl : Py.CaseTables} client line rest out sent0 :
  CLI.main client {| stdin := line :: rest; stdout := out; calls := sent0 |}
  = if blank line then
      (Ret (),
       {| stdin := rest;
          stdout := out ++
            [ py "--- LLM Q&A Command-Line Interface ---" ++ newline;
              newline ++ py "Enter your question: ";
              py "No question entered. Exiting." ++ newline ];
          calls := sent0 |})
    else
      match answer_for_outcome (client (request_for line)) with
      | Ret answer =>
          (Ret (),
           {| stdin := rest;
              stdout := out ++
                [ py "--- LLM Q&A Command-Line Interface ---" ++ newline;
                  newline ++ py "Enter your question: ";
                  (newline ++ py "Original Question: " ++ line) ++ newline;
                  (py "Preprocessed Text: " ++ CLI.basic_preprocess line) ++ newline;
                  (newline ++ py "Sending question to LLM...") ++ newline;
                  (newline ++ py "==================================") ++ newline;
                  ([0x1F916] ++ py " Final LLM Answer:") ++ newline;
                  answer ++ newline;
                  py "==================================" ++ newline ];
              calls := sent0 ++ [request_for line] |})
      | Raise e =>
          (Raise e,
           {| stdin := rest;
              stdout := out ++
                [ py "--- LLM Q&A Command-Line Interface ---" ++ newline;
                  newline ++ py "Enter your question: ";
                  (newline ++ py "Original Question: " ++ line) ++ newline;
                  (py "Preprocessed Text: " ++ CLI.basic_preprocess line) ++ newline;
                  (newline ++ py "Sending question to LLM...") ++ newline ];
              calls := sent0 ++ [request_for line] |})
      end.
Proof.
  unfold CLI.main, mbind, IO_bind, print, input. cbn [stdin stdout calls].
  destruct (Py.strip line) as [| c r] eqn:E.
  - apply strip_nil_iff in E. rewrite E.
    cbn [stdin stdout calls]. by rewrite <- !app_assoc.
  - destruct (blank line) eqn:B.
    { apply strip_nil_iff in B. congruence. }
    rewrite get_answer_from_llm_run. unfold sent. cbn [stdin stdout calls].
    destruct (answer_for_outcome (client (request_for line))) as [answer | e];
      cbn [stdin stdout calls]; by rewrite <- !app_assoc.
Qed.

(** * The web entry point *)

Lemma index_run {tbl : Py.CaseTables} client request w :
  App.index client request w
  = if bool_decide (App.method request = "POST") then
      if blank (question_field request) then
        (Ret (App.render_template "index.html"
                (<["answer" := Some (py "Please enter a question.")]> default_context)),
         w)
      else
        let q := Py.strip (question_field request) in
        match client with
        | Some c =>
            match answer_for_outcome (c (request_for q)) with
            | Ret answer =>
                (Ret (App.render_template "index.html" (answered_context q answer)),
                 sent w (request_for q))
            | Raise e => (Raise e, sent w (request_for q))
            end
        | None =>
            (Ret (App.render_template "index.html"
                    (answered_context q
                       (py "ERROR: LLM Client failed to initialize. Check GEMINI_API_KEY setting."))),
             w)
        end
    else (Ret (App.render_template "index.html" default_context), w).
Proof.
  unfold App.index. fold default_context. fold (question_field request).
  destruct (bool_decide (App.method request = "POST")); [| reflexivity].
  destruct (Py.strip (question_field request)) as [| a r] eqn:E.
  - apply strip_nil_iff in E. rewrite E. reflexivity.
  - destruct (blank (question_field request)) eqn:B.
    { apply strip_nil_iff in B. congruence. }
    cbv zeta. unfold mbind at 1. unfold IO_bind at 1.
    unfold mbind at 1. unfold IO_bind at 1.
    destruct client as [c |].
    + rewrite get_llm_response_run.
      by destruct (answer_for_outcome (c (request_for (a :: r)))).
    + rewrite get_llm_response_no_client. reflexivity.
Qed.

(** * Start-up *)

Lemma init_client_run genai_Client API_KEY w :
  App.init_client genai_Client API_KEY w
  = let banner :=
      [ py "DEBUG 1: Flask app instance created." ++ newline;
        (py "DEBUG 2: API_KEY loaded: " ++ App.str_of_bool (truthy API_KEY)) ++ newline ] in
    if truthy API_KEY then
      match genai_Client (default [] API_KEY) with
      | Ret client =>
          (Ret (Some client),
           printed w (banner ++
             [ py "DEBUG 3: Gemini Client initialized successfully." ++ newline ]))
      | Raise e =>
          if isinstance_Exception e then
            (Ret None,
             printed w (banner ++
               [ (py "DEBUG 3 FAILED: Error initializing Gemini client: "
                  ++ str_of_exn e) ++ newline ]))
          else (Raise e, printed w banner)
      end
    else
      (Ret None,
       printed w (banner ++
         [ py "WARNING: GEMINI_API_KEY not set. API calls will fail." ++ newline ])).
Proof.
  unfold App.init_client, try_except, call, mbind, IO_bind, mret, IO_ret, print, printed.
  cbn [stdin stdout calls].
  destruct (truthy API_KEY).
  - destruct (genai_Client (default [] API_KEY)) as [c | [m | m | m]];
      cbn [dispatch isinstance_Exception stdin stdout calls];
      unfold mbind, IO_bind, mret, IO_ret, print, raise; cbn [stdin stdout calls];
      by rewrite <- !app_assoc.
  - cbn [stdin stdout calls]. by rewrite <- !app_assoc.
Qed.

Lemma script_run {tbl : Py.CaseTables} genai_Client API_KEY w :
  CLI.script genai_Client API_KEY w
  = if truthy API_KEY then
      match genai_Client (default [] API_KEY) with
      | Ret client => CLI.main client w
      | Raise e =>
          if isinstance_Exception e then
            (Raise (NonException (py "None")),
             printed w [ (py "Error initializing Gemini client: " ++ str_of_exn e)
                         ++ newline ])
          else (Raise e, w)
      end
    else
      (Raise (NonException (py "None")),
       printed w [ py "Error: GEMINI_API_KEY not found. Please set it in a .env file."
                   ++ newline ]).
Proof.
  unfold CLI.script, try_except, call, exit, raise, mbind, IO_bind, print, printed.
  destruct (truthy API_KEY); [| reflexivity].
  destruct (genai_Client (default [] API_KEY)) as [c | [m | m | m]];
    cbn [dispatch isinstance_Exception]; try reflexivity.
  all: by destruct w.
Qed.

(** * The claims *)

(** C1.  In both files [basic_preprocess] returns, for every input, the
    text obtained by lower-casing it, removing every character of the ASCII
    punctuation set, and joining its whitespace-separated tokens with single
    spaces.  In particular "Hello, World!!" becomes "hello world",
    "  multiple   spaces  " becomes "multiple spaces", and the empty string
    stays empty. *)
Theorem C1_basic_preprocess_is_Normalizer (tbl : Py.CaseTables) (s : pystr) :
  CLI.basic_preprocess s = Spec.Normalizer s
  ∧ App.basic_preprocess s = Spec.Normalizer s
  ∧ CLI.basic_preprocess (py "Hello, World!!") = py "hello world"
  ∧ CLI.basic_preprocess (py "  multiple   spaces  ") = py "multiple spaces"
  ∧ CLI.basic_preprocess (py "") = py ""
  ∧ App.basic_preprocess (py "Hello, World!!") = py "hello world"
  ∧ App.basic_preprocess (py "  multiple   spaces  ") = py "multiple spaces"
  ∧ App.basic_preprocess (py "") = py "".
Proof.
  split; [apply basic_preprocess_unfold |].
  split; [apply app_basic_preprocess_unfold |].
  repeat split; vm_compute; reflexivity.
Qed.

(** C2.  The Normalizer is idempotent: normalizing a normalized text gives
    the same text, for every input and in both files, under case tables for
    which lower-casing is stable. *)
Theorem C2_basic_preprocess_idempotent (tbl : Py.CaseTables) :
  lowercase_stable tbl →
  ∀ s : pystr,
    CLI.basic_preprocess (CLI.basic_preprocess s) = CLI.basic_preprocess s
    ∧ App.basic_preprocess (App.basic_preprocess s) = App.basic_preprocess s.
Proof.
  intros Hst s. split; by apply normalized_fixed.
Qed.

Lemma C2_witness :
  lowercase_stable sample_tables
  ∧ @CLI.basic_preprocess sample_tables
      (@CLI.basic_preprocess sample_tables sample_text)
    = @CLI.basic_preprocess sample_tables sample_text
  ∧ @App.basic_preprocess sample_tables
      (@App.basic_preprocess sample_tables sample_text)
    = @App.basic_preprocess sample_tables sample_text.
Proof.
  split; [exact sample_tables_stable |].
  exact (C2_basic_preprocess_idempotent sample_tables sample_tables_stable sample_text).
Defined.

(** C10.  Every output of [basic_preprocess] is free of upper-case ASCII
    letters and of ASCII punctuation, neither starts nor ends with
    whitespace, has no two whitespace characters in a row, and is a fixed
    point of [basic_preprocess]; in both files, under case tables for which
    lower-casing is stable. *)
Theorem C10_normalized_shape (tbl : Py.CaseTables) :
  lowercase_stable tbl →
  ∀ s : pystr,
    let r := CLI.basic_preprocess s in
    App.basic_preprocess s = r
    ∧ (∀ c, c ∈ r → Py.is_ascii_upper c = false)
    ∧ (∀ c, c ∈ r → c ∉ Py.punctuation)
    ∧ (∀ c, head r = Some c → Py.isspace c = false)
    ∧ (∀ c, last r = Some c → Py.isspace c = false)
    ∧ no_adjacent_whitespace r
    ∧ CLI.basic_preprocess r = r
    ∧ App.basic_preprocess r = r.
Proof.
  intros Hst s r. split; [reflexivity |].
  split.
  { intros c Hc. apply settled_not_upper.
    apply normalized_elem in Hc as [-> | [Hc _]]; [apply settled_space |].
    pose proof (do_lower_outputs s [] Hst) as Hout.
    rewrite Forall_forall in Hout. by apply Hout. }
  split.
  { intros c Hc.
    apply normalized_elem in Hc as [-> | [_ Hc]]; [apply space_not_punctuation | done]. }
  subst r. rewrite basic_preprocess_unfold.
  split; [intros c; apply head_join, tokens_are_tokens |].
  split; [intros c; apply last_join, tokens_are_tokens |].
  split; [apply (spaced_lookup _ false), spaced_join, tokens_are_tokens |].
  rewrite <- basic_preprocess_unfold.
  split; by apply normalized_fixed.
Qed.

Lemma C10_witness :
  lowercase_stable sample_tables
  ∧ let r := @CLI.basic_preprocess sample_tables sample_text in
    @App.basic_preprocess sample_tables sample_text = r
    ∧ (∀ c, c ∈ r → Py.is_ascii_upper c = false)
    ∧ (∀ c, c ∈ r → c ∉ Py.punctuation)
    ∧ (∀ c, head r = Some c → Py.isspace c = false)
    ∧ (∀ c, last r = Some c → Py.isspace c = false)
    ∧ no_adjacent_whitespace r
    ∧ @CLI.basic_preprocess sample_tables r = r
    ∧ @App.basic_preprocess sample_tables r = r.
Proof.
  split; [exact sample_tables_stable |].
  exact (C10_normalized_shape sample_tables sample_tables_stable sample_text).
Defined.

(** C8.  The two files agree: their [basic_preprocess] are equal on every
    input, and [get_answer_from_llm] and [get_llm_response] give the same
    answer and send the same request for every question and every outcome
    of the service call (whenever there is a client to call, which is the
    only situation in which the console function runs). *)
Theorem C8_entry_points_agree :
  (∀ (tbl : Py.CaseTables) (s : pystr),
     CLI.basic_preprocess s = App.basic_preprocess s)
  ∧ (∀ (client : Client) (question : pystr) (w : world),
       CLI.get_answer_from_llm client question w
       = App.get_llm_response (Some client) question w).
Proof.
  split.
  - intros tbl s. by rewrite basic_preprocess_unfold, app_basic_preprocess_unfold.
  - intros client question w.
    by rewrite get_answer_from_llm_run, get_llm_response_run.
Qed.

Lemma contains_suffix (pre s : pystr) : Py.contains s (pre ++ s).
Proof. exists pre, []. by rewrite app_nil_r. Qed.

(** C3, as the code has it.  When the service call fails with an instance
    of [Exception], the Answer Requester does not raise: it returns a text.
    For the service's API error the text is "An API Error occurred: "
    followed by the error's message, and for any other [Exception] it is
    "An unexpected error occurred: " followed by the exception's string
    form; either way the message is contained in the answer.  An exception
    that is not an instance of [Exception] is not caught: the Answer
    Requester raises it, the request having been sent.  In both files, for
    every question. *)
Theorem C3_failures_become_text
    (client : Client) (question : pystr) (w : world) (e : exn) :
  client (request_for question) = Raise e →
  if isinstance_Exception e then
    ∃ answer : pystr,
      CLI.get_answer_from_llm client question w
        = (Ret answer, sent w (request_for question))
      ∧ App.get_llm_response (Some client) question w
        = (Ret answer, sent w (request_for question))
      ∧ answer =
          (if isinstance_APIError e then py "An API Error occurred: "
           else py "An unexpected error occurred: ") ++ str_of_exn e
      ∧ Py.contains (str_of_exn e) answer
  else
    CLI.get_answer_from_llm client question w
      = (Raise e, sent w (request_for question))
    ∧ App.get_llm_response (Some client) question w
      = (Raise e, sent w (request_for question)).
Proof.
  intros Hfail.
  rewrite get_answer_from_llm_run, get_llm_response_run, Hfail.
  destruct e as [m | m | m]; cbn [answer_for_outcome isinstance_Exception
                                   isinstance_APIError str_of_exn].
  - eexists. do 3 (split; [reflexivity |]). apply contains_suffix.
  - eexists. do 3 (split; [reflexivity |]). apply contains_suffix.
  - by split.
Qed.

Lemma C3_witness :
  stub_rate_limited (request_for (py "What is AI?")) = Raise (APIError (py "rate limited"))
  ∧ ∃ answer : pystr,
      CLI.get_answer_from_llm stub_rate_limited (py "What is AI?") quiet_world
        = (Ret answer, sent quiet_world (request_for (py "What is AI?")))
      ∧ App.get_llm_response (Some stub_rate_limited) (py "What is AI?") quiet_world
        = (Ret answer, sent quiet_world (request_for (py "What is AI?")))
      ∧ answer = py "An API Error occurred: " ++ py "rate limited"
      ∧ Py.contains (py "rate limited") answer.
Proof.
  split; [reflexivity |].
  exact (C3_failures_become_text stub_rate_limited (py "What is AI?") quiet_world
           (APIError (py "rate limited")) eq_refl).
Defined.

(** C3 as stated fails: a service call that raises [KeyboardInterrupt],
    which is not an instance of [Exception], makes the Answer Requester
    raise, in both files. *)
Lemma C3_counterexample_interrupt :
  stub_interrupted (request_for (py "What is AI?")) = Raise (NonException [])
  ∧ CLI.get_answer_from_llm stub_interrupted (py "What is AI?") quiet_world
    = (Raise (NonException []), sent quiet_world (request_for (py "What is AI?")))
  ∧ App.get_llm_response (Some stub_interrupted) (py "What is AI?") quiet_world
    = (Raise (NonException []), sent quiet_world (request_for (py "What is AI?"))).
Proof. repeat split. Qed.

(** C4.  When the client was never initialised, because the credential is
    missing or empty or because building the client failed, the web
    application's client is [None] (or, when building the client raised
    outside [Exception], initialisation itself raised and there is no
    application), and with the client [None] the Answer Requester returns
    the fixed error text for every question and leaves the world as it was:
    no call is sent.  (The console script ends at start-up in the same
    situations, before any question is read or sent.) *)
Theorem C4_no_client_short_circuit {tbl : Py.CaseTables}
    (genai_Client : pystr → result Client) (API_KEY : option pystr) (w0 : world) :
  truthy API_KEY = false
    ∨ (∃ e, genai_Client (default [] API_KEY) = Raise e) →
  ((App.init_client genai_Client API_KEY w0).1 = Ret None
   ∨ ∃ e, genai_Client (default [] API_KEY) = Raise e
          ∧ isinstance_Exception e = false
          ∧ (App.init_client genai_Client API_KEY w0).1 = Raise e)
  ∧ calls (App.init_client genai_Client API_KEY w0).2 = calls w0
  ∧ (∀ (question : pystr) (w : world),
       App.get_llm_response None question w
       = (Ret (py "ERROR: LLM Client failed to initialize. Check GEMINI_API_KEY setting."), w))
  ∧ calls (CLI.script genai_Client API_KEY w0).2 = calls w0
  ∧ stdin (CLI.script genai_Client API_KEY w0).2 = stdin w0.
Proof.
  intros Hinit.
  assert (Hcases : truthy API_KEY = false
            ∨ (truthy API_KEY = true ∧ ∃ e, genai_Client (default [] API_KEY) = Raise e)).
  { destruct (truthy API_KEY); [right | by left].
    destruct Hinit as [? | ?]; [done | by split]. }
  rewrite init_client_run, script_run. cbv zeta.
  destruct Hcases as [Hk | [Hk [e He]]]; rewrite Hk.
  - repeat split; by left.
  - rewrite He. destruct (isinstance_Exception e) eqn:Hexc.
    + repeat split; by left.
    + repeat split. right. by exists e.
Qed.

Lemma C4_witness :
  (truthy None = false
     ∨ (∃ e, (λ _ : pystr, Ret stub_paris) (default [] None) = Raise e))
  ∧ (App.init_client (λ _, Ret stub_paris) None quiet_world).1 = Ret None
  ∧ calls (App.init_client (λ _, Ret stub_paris) None quiet_world).2 = calls quiet_world
  ∧ (∀ (question : pystr) (w : world),
       App.get_llm_response None question w
       = (Ret (py "ERROR: LLM Client failed to initialize. Check GEMINI_API_KEY setting."), w))
  ∧ calls (@CLI.script sample_tables (λ _, Ret stub_paris) None quiet_world).2
    = calls quiet_world
  ∧ stdin (@CLI.script sample_tables (λ _, Ret stub_paris) None quiet_world).2
    = stdin quiet_world.
Proof.
  split; [left; reflexivity |].
  destruct (@C4_no_client_short_circuit sample_tables (λ _, Ret stub_paris) None quiet_world
              (or_introl eq_refl)) as (Hinit & Hrest).
  split; [| exact Hrest].
  destruct Hinit as [Hnone | (e & Hraise & _)]; [exact Hnone | discriminate Hraise].
Defined.

(** C5.  For every question the Answer Requester sends exactly one request,
    carrying the model identifier "gemini-2.5-flash", the question itself
    as contents, and the fixed system instruction; and when the call
    succeeds it returns the [text] of the response unchanged.  In both
    files. *)
Theorem C5_request_and_verbatim_answer
    (client : Client) (question : pystr) (w : world) :
  let req :=
    {| model := py "gemini-2.5-flash";
       contents := question;
       system_instruction :=
         py "You are a helpful and concise Question-Answering system. Answer the user's question directly and professionally." |} in
  calls (CLI.get_answer_from_llm client question w).2 = calls w ++ [req]
  ∧ calls (App.get_llm_response (Some client) question w).2 = calls w ++ [req]
  ∧ (∀ response, client req = Ret response →
       (CLI.get_answer_from_llm client question w).1 = Ret (text response)
       ∧ (App.get_llm_response (Some client) question w).1 = Ret (text response)).
Proof.
  intros req. rewrite get_answer_from_llm_run, get_llm_response_run.
  do 2 (split; [reflexivity |]).
  intros response Hok. cbn [fst]. fold req. unfold request_for. fold req.
  rewrite Hok. by split.
Qed.

Lemma C5_witness :
  stub_paris (request_for (py "What is the capital of France?"))
    = Ret {| text := py "Paris is the capital of France." |}
  ∧ calls (CLI.get_answer_from_llm stub_paris (py "What is the capital of France?") quiet_world).2
    = [request_for (py "What is the capital of France?")]
  ∧ (CLI.get_answer_from_llm stub_paris (py "What is the capital of France?") quiet_world).1
    = Ret (py "Paris is the capital of France.")
  ∧ (App.get_llm_response (Some stub_paris) (py "What is the capital of France?") quiet_world).1
    = Ret (py "Paris is the capital of France.").
Proof.
  split; [reflexivity |].
  pose proof (C5_request_and_verbatim_answer stub_paris
                (py "What is the capital of France?") quiet_world) as (Hc & _ & Hok).
  split; [exact Hc |].
  exact (Hok {| text := py "Paris is the capital of France." |} eq_refl).
Defined.

(** C6.  A POST whose [question] field is empty or holds only whitespace
    gets the page rendered with "Please enter a question." as its answer,
    and the world is left as it was: the service is not called.  Whatever
    the client. *)
Theorem C6_blank_post_prompts {tbl : Py.CaseTables}
    (client : option Client) (request : App.HttpRequest) (w : world) :
  App.method request = "POST" →
  blank (question_field request) = true →
  ∃ context : gmap string (option pystr),
    App.index client request w
      = (Ret (App.render_template "index.html" context), w)
    ∧ context !! "answer" = Some (Some (py "Please enter a question.")).
Proof.
  intros Hpost Hblank. rewrite index_run.
  rewrite bool_decide_eq_true_2 by done. rewrite Hblank.
  eexists. split; [reflexivity |]. apply lookup_insert_eq.
Qed.

Lemma C6_witness :
  App.method (post (py "   ")) = "POST"
  ∧ blank (question_field (post (py "   "))) = true
  ∧ ∃ context : gmap string (option pystr),
      @App.index sample_tables (Some stub_paris) (post (py "   ")) quiet_world
        = (Ret (App.render_template "index.html" context), quiet_world)
      ∧ context !! "answer" = Some (Some (py "Please enter a question.")).
Proof.
  split; [reflexivity |]. split; [reflexivity |].
  exact (@C6_blank_post_prompts sample_tables (Some stub_paris) (post (py "   "))
           quiet_world eq_refl eq_refl).
Defined.

(** C7, as the code has it.  The console entry point sends the input line
    exactly as read, whenever the line is not blank; the web entry point
    sends the [question] field with leading and trailing whitespace
    trimmed, whenever the field is not blank.  In both, the normalized text
    is computed from the same text by [basic_preprocess] and only shown:
    it is printed, or stored in the context under [processed_question] of
    the page (there is no page when the service call raises outside
    [Exception]; the handler then raises, the trimmed field having been
    sent). *)
Theorem C7_unnormalized_text_is_sent {tbl : Py.CaseTables}
    (client : Client) (line : pystr) (rest out : list pystr)
    (sent0 : list GenerateContentRequest)
    (request : App.HttpRequest) (w : world) :
  blank line = false →
  App.method request = "POST" →
  blank (question_field request) = false →
  let after := (CLI.main client {| stdin := line :: rest; stdout := out; calls := sent0 |}).2 in
  let q := Py.strip (question_field request) in
  (calls after = sent0 ++ [request_for line]
   ∧ contents (request_for line) = line
   ∧ (py "Preprocessed Text: " ++ CLI.basic_preprocess line) ++ newline ∈ stdout after)
  ∧ (App.index (Some client) request w).2 = sent w (request_for q)
  ∧ contents (request_for q) = q
  ∧ match client (request_for q) with
    | Raise (NonException m) =>
        (App.index (Some client) request w).1 = Raise (NonException m)
    | _ =>
        ∃ context : gmap string (option pystr),
          (App.index (Some client) request w).1
            = Ret (App.render_template "index.html" context)
          ∧ context !! "original_question" = Some (Some q)
          ∧ context !! "processed_question" = Some (Some (App.basic_preprocess q))
    end.
Proof.
  intros Hline Hpost Hfield after q. split.
  - subst after. rewrite main_run, Hline.
    destruct (answer_for_outcome (client (request_for line))) as [answer | e];
      cbn [snd calls stdout]; (split; [reflexivity |]); (split; [reflexivity |]);
      apply elem_of_app; right; do 3 right; left.
  - rewrite index_run, bool_decide_eq_true_2 by done. rewrite Hfield.
    cbv zeta. fold q.
    assert (Hctx : ∀ answer,
      ∃ context : gmap string (option pystr),
        Ret (App.render_template "index.html" (answered_context q answer))
          = Ret (App.render_template "index.html" context)
        ∧ context !! "original_question" = Some (Some q)
        ∧ context !! "processed_question" = Some (Some (App.basic_preprocess q))).
    { intros answer. eexists. split; [reflexivity |]. unfold answered_context. split.
      + repeat (rewrite lookup_insert_ne by done). apply lookup_insert_eq.
      + repeat (rewrite lookup_insert_ne by done). apply lookup_insert_eq. }
    destruct (client (request_for q)) as [r | [m | m | m]];
      cbn [answer_for_outcome fst snd]; (split; [reflexivity |]);
      (split; [reflexivity |]); try apply Hctx; reflexivity.
Qed.

Lemma C7_witness :
  blank (py "What is AI?") = false
  ∧ App.method (post (py "  What is AI?  ")) = "POST"
  ∧ blank (question_field (post (py "  What is AI?  "))) = false
  ∧ calls (@CLI.main sample_tables stub_paris
             {| stdin := [py "What is AI?"]; stdout := []; calls := [] |}).2
    = [request_for (py "What is AI?")]
  ∧ (@App.index sample_tables (Some stub_paris) (post (py "  What is AI?  ")) quiet_world).2
    = sent quiet_world (request_for (Py.strip (question_field (post (py "  What is AI?  ")))))
  ∧ ∃ context : gmap string (option pystr),
      (@App.index sample_tables (Some stub_paris) (post (py "  What is AI?  ")) quiet_world).1
        = Ret (App.render_template "index.html" context)
      ∧ context !! "processed_question"
        = Some (Some (@App.basic_preprocess sample_tables
                        (Py.strip (question_field (post (py "  What is AI?  ")))))).
Proof.
  split; [reflexivity |]. split; [reflexivity |]. split; [reflexivity |].
  pose proof (@C7_unnormalized_text_is_sent sample_tables stub_paris
                (py "What is AI?") [] [] []
                (post (py "  What is AI?  ")) quiet_world
                eq_refl eq_refl eq_refl)
    as [(Hcli & _ & _) (Hweb & _ & (context & Hrun & _ & Hproc))].
  split; [exact Hcli |]. split; [exact Hweb |].
  exists context. split; [exact Hrun | exact Hproc].
Defined.

(** C7 as stated fails for the web entry point: for the submitted field
    " hi " the handler sends "hi", not the field as submitted. *)
Lemma C7_counterexample_web_trims :
  question_field (post (py " hi ")) = py " hi "
  ∧ calls (@App.index sample_tables (Some stub_paris) (post (py " hi ")) quiet_world).2
    = [request_for (py "hi")]
  ∧ calls (@App.index sample_tables (Some stub_paris) (post (py " hi ")) quiet_world).2
    ≠ [request_for (py " hi ")].
Proof.
  split; [reflexivity |]. split; [vm_compute; reflexivity |].
  vm_compute. discriminate.
Qed.


Example main_blank_line :
  @CLI.main sample_tables stub_paris
    {| stdin := [py "   "; py "next"]; stdout := []; calls := [] |}
  = (Ret (),
     {| stdin := [py "next"];
        stdout := [ py "--- LLM Q&A Command-Line Interface ---" ++ newline;
                    newline ++ py "Enter your question: ";
                    py "No question entered. Exiting." ++ newline ];
        calls := [] |}).
Proof. vm_compute. reflexivity. Qed.

Example main_paris :
  calls (@CLI.main sample_tables stub_paris
           {| stdin := [py "What is the Capital of France?"]; stdout := []; calls := [] |}).2
  = [request_for (py "What is the Capital of France?")]
  ∧ py "Preprocessed Text: what is the capital of france" ++ newline
    ∈ stdout (@CLI.main sample_tables stub_paris
                {| stdin := [py "What is the Capital of France?"]; stdout := []; calls := [] |}).2
  ∧ py "Paris is the capital of France." ++ newline
    ∈ stdout (@CLI.main sample_tables stub_paris
                {| stdin := [py "What is the Capital of France?"]; stdout := []; calls := [] |}).2.
Proof.
  rewrite main_run. split; [reflexivity |].
  split; [do 3 right; left | do 7 right; left].
Qed.

Example lower_final_sigma :
  @Py.lower sample_tables [0x39F; 0x394; 0x39F; 0x3A3; 32; 0x3A3; 0x391]
  = [0x3BF; 0x3B4; 0x3BF; 0x3C2; 32; 0x3C3; 0x3B1].
Proof. reflexivity. Qed.

Example normalize_sample_text :
  @CLI.basic_preprocess sample_tables sample_text
  = [0x3BF; 0x3B4; 0x3BF; 0x3C2; 32; 0x69; 0x307] ++ py "stanbul ok".
Proof. vm_compute. reflexivity. Qed.


(** * Further properties of the code *)

(** ** More on tokens and joins *)

Lemma tokens_nil_iff t : Spec.tokens t = [] ↔ blank t = true.
Proof.
  unfold blank. induction t as [| c r IH]; [done |].
  rewrite tokens_cons. cbn [forallb].
  destruct (Py.isspace c); cbn [andb]; [exact IH |].
  split; [| done].
  destruct r as [| d r']; [done |].
  destruct (Py.isspace d); [done |].
  by destruct (Spec.tokens (d :: r')).
Qed.

Lemma join_nil_iff ts :
  Forall is_token ts → Py.join [32] ts = [] ↔ ts = [].
Proof.
  intros Hts. split; [| by intros ->].
  destruct Hts as [| t ts [Hne _] _]; [done |].
  rewrite join_cons. destruct t as [| a t]; [done |]. by destruct ts.
Qed.

Lemma join_cons_head sep c t ts :
  Py.join sep ((c :: t) :: ts) = c :: Py.join sep (t :: ts).
Proof. rewrite !join_cons. by destruct ts. Qed.

(** Joining the tokens of a text never gives more characters than the text
    has; one less when the text starts with whitespace. *)
Lemma join_tokens_length s :
  (length (Py.join [32%N] (Spec.tokens s))
   + (match s with
      | c :: _ => if Py.isspace c then 1 else 0
      | [] => 0
      end) ≤ length s)%nat.
Proof.
  induction s as [| c r IH]; [done |].
  rewrite tokens_cons. destruct (Py.isspace c) eqn:Hc.
  - cbn [length]. destruct r as [| d r']; [simpl; lia |].
    destruct (Py.isspace d); lia.
  - destruct r as [| d r']; [simpl; lia |].
    destruct (Py.isspace d) eqn:Hd.
    + rewrite join_cons. destruct (Spec.tokens (d :: r')) as [| t ts].
      * simpl. lia.
      * rewrite !length_app. cbn [length] in *. lia.
    + destruct (Spec.tokens (d :: r')) as [| t ts].
      * simpl. lia.
      * rewrite join_cons_head. cbn [length] in *. lia.
Qed.

Lemma filter_length_le (s : pystr) :
  (length (Spec.remove_punctuation s) ≤ length s)%nat.
Proof. apply length_filter. Qed.

(** ** Lower-casing ASCII text *)

Lemma do_lower_ascii {tbl : Py.CaseTables} s : ∀ before,
  Forall (λ c, c < 128) s → Py.do_lower before s = Py.ascii_tolower <$> s.
Proof.
  induction s as [| c s IH]; intros before Hs; [done |].
  apply Forall_cons in Hs as [Hc Hs].
  cbn [Py.do_lower]. rewrite (IH _ Hs). unfold Py.lower_ucs4, Py.to_lower_full.
  replace (c =? 0x3A3) with false by (symmetry; apply N.eqb_neq; lia).
  by replace (c <? 128) with true by (symmetry; apply N.ltb_lt; lia).
Qed.

Lemma punctuation_ascii c : c ∈ Py.punctuation → c < 128 ∧ Py.is_ascii_upper c = false.
Proof.
  unfold Py.punctuation. rewrite !elem_of_cons, elem_of_nil.
  intros H. repeat (destruct H as [-> | H]; [by split |]). done.
Qed.

Lemma ascii_tolower_keeps c :
  Py.is_ascii_upper c = false → Py.ascii_tolower c = c.
Proof. unfold Py.ascii_tolower. by intros ->. Qed.

Lemma ascii_space_not_upper c :
  c < 128 → Py.isspace c = true → Py.is_ascii_upper c = false.
Proof.
  intros Hc. unfold Py.isspace, Py.is_ascii_upper.
  destruct (N.leb_spec 65 c) as [Hlo |]; [| done].
  destruct (N.leb_spec c 90) as [Hhi |]; [| done].
  intros Hsp. exfalso. revert Hsp. bool_to_prop. lia.
Qed.

(** ** More on trimming *)

Lemma lstrip_decomp s : ∃ pre, s = pre ++ Py.lstrip s ∧ blank pre = true.
Proof.
  induction s as [| c s (pre & E & Hpre)]; [by exists [] |].
  cbn [Py.lstrip]. destruct (Py.isspace c) eqn:Hc.
  - exists (c :: pre). split; [by rewrite E at 1 |].
    unfold blank in *. cbn [forallb]. by rewrite Hc, Hpre.
  - by exists [].
Qed.

Lemma lstrip_head s c : head (Py.lstrip s) = Some c → Py.isspace c = false.
Proof.
  induction s as [| a s IH]; [done |].
  cbn [Py.lstrip]. destruct (Py.isspace a) eqn:Ha; [exact IH |].
  by intros [= <-].
Qed.

Lemma rstrip_decomp s : ∃ post, s = Py.rstrip s ++ post ∧ blank post = true.
Proof.
  unfold Py.rstrip. destruct (lstrip_decomp (reverse s)) as (pre & E & Hpre).
  exists (reverse pre). split; [| by apply blank_reverse].
  rewrite <- reverse_app, <- E. by rewrite reverse_involutive.
Qed.

Lemma rstrip_last s c : last (Py.rstrip s) = Some c → Py.isspace c = false.
Proof. unfold Py.rstrip. rewrite last_reverse. apply lstrip_head. Qed.

Lemma strip_last s c : last (Py.strip s) = Some c → Py.isspace c = false.
Proof. apply rstrip_last. Qed.

Lemma strip_head s c : head (Py.strip s) = Some c → Py.isspace c = false.
Proof.
  unfold Py.strip. intros Hc.
  destruct (rstrip_decomp (Py.lstrip s)) as (post & E & _).
  apply (lstrip_head s). rewrite E.
  destruct (Py.rstrip (Py.lstrip s)); [done | exact Hc].
Qed.

(** Trimming removes whitespace at the two ends and nothing else. *)
Lemma strip_decomp s :
  ∃ pre post, s = pre ++ Py.strip s ++ post ∧ blank pre = true ∧ blank post = true.
Proof.
  destruct (lstrip_decomp s) as (pre & E1 & Hpre).
  destruct (rstrip_decomp (Py.lstrip s)) as (post & E2 & Hpost).
  exists pre, post. unfold Py.strip. by rewrite <- E2.
Qed.

(** ** The console entry point at end of input *)

Lemma main_eof {tbl : Py.CaseTables} client out sent0 :
  CLI.main client {| stdin := []; stdout := out; calls := sent0 |}
  = (Raise (OtherException (py "EOF when reading a line")),
     {| stdin := [];
        stdout := out ++
          [ py "--- LLM Q&A Command-Line Interface ---" ++ newline;
            newline ++ py "Enter your question: " ];
        calls := sent0 |}).
Proof.
  unfold CLI.main, mbind, IO_bind, print, input. cbn [stdin stdout calls].
  by rewrite <- !app_assoc.
Qed.

(** ** Texts that are already normal *)

Lemma no_adjacent_tail c r :
  no_adjacent_whitespace (c :: r) → no_adjacent_whitespace r.
Proof. intros H i x y Hx Hy. by apply (H (S i) x y). Qed.

Lemma last_tail (c : N) r x : last r = Some x → last (c :: r) = Some x.
Proof. intros H. by rewrite last_cons, H. Qed.

(** For a text whose only whitespace is single spaces between words (and
    possibly one in front), joining its tokens gives the text back, less
    the space in front. *)
Lemma join_tokens_lstrip r :
  (∀ c, c ∈ r → Py.isspace c = true → c = 32) →
  (∀ c, last r = Some c → Py.isspace c = false) →
  no_adjacent_whitespace r →
  Py.join [32] (Spec.tokens r) = Py.lstrip r.
Proof.
  induction r as [| c r IH]; intros Hws Hlast Hadj; [done |].
  assert (IH' : Py.join [32] (Spec.tokens r) = Py.lstrip r).
  { apply IH.
    - intros x Hx. apply Hws. by right.
    - intros x Hx. apply Hlast. by apply last_tail.
    - by apply no_adjacent_tail in Hadj. }
  clear IH. rewrite tokens_cons. cbn [Py.lstrip].
  destruct (Py.isspace c) eqn:Hc; [exact IH' |].
  destruct r as [| d r]; [done |].
  cbn [Py.lstrip] in IH'. destruct (Py.isspace d) eqn:Hd.
  - assert (d = 32) as -> by (apply Hws; [right; left | done]).
    destruct r as [| e r].
    { specialize (Hlast 32 eq_refl). done. }
    assert (He : Py.isspace e = false).
    { destruct (Py.isspace e) eqn:He; [| done].
      exfalso. apply (Hadj 1%nat 32 e); done. }
    cbn [Py.lstrip] in IH'. rewrite He in IH'.
    rewrite join_cons. destruct (Spec.tokens (32 :: e :: r)) as [| t ts]; [done |].
    by rewrite IH'.
  - destruct (Spec.tokens (d :: r)) as [| t ts]; [done |].
    by rewrite join_cons_head, IH'.
Qed.

Lemma lstrip_id r :
  (∀ c, head r = Some c → Py.isspace c = false) → Py.lstrip r = r.
Proof.
  destruct r as [| c r]; [done |]. intros H. cbn [Py.lstrip].
  by rewrite (H c eq_refl).
Qed.

(** * Extra properties *)

(** X1.  A request that is not a POST (the form's GET) gets the page
    rendered with the default context: three empty texts and no answer.
    The world is left as it was; in particular no request is sent. *)
Theorem X1_index_get {tbl : Py.CaseTables}
    (client : option Client) (request : App.HttpRequest) (w : world) :
  App.method request ≠ "POST" →
  App.index client request w
  = (Ret (App.render_template "index.html"
            {[ "user_question" := Some [];
               "original_question" := Some [];
               "processed_question" := Some [];
               "answer" := None ]}),
     w).
Proof.
  intros Hget. rewrite index_run. by rewrite bool_decide_eq_false_2.
Qed.

Lemma X1_witness :
  "GET" ≠ "POST"
  ∧ @App.index sample_tables (Some stub_paris)
      {| App.method := "GET"; App.form := ∅ |} quiet_world
    = (Ret (App.render_template "index.html"
              {[ "user_question" := Some [];
                 "original_question" := Some [];
                 "processed_question" := Some [];
                 "answer" := None ]}),
       quiet_world).
Proof.
  assert (H : "GET" ≠ "POST") by discriminate.
  split; [exact H |].
  exact (@X1_index_get sample_tables (Some stub_paris)
           {| App.method := "GET"; App.form := ∅ |} quiet_world H).
Defined.

(** X2.  Degraded mode of the web application: with no client, a POST of a
    question that is not blank is still answered with a page.  The page
    shows the trimmed question, its normalized form, and the fixed
    initialisation error as the answer; no request is sent. *)
Theorem X2_index_without_client {tbl : Py.CaseTables}
    (request : App.HttpRequest) (w : world) :
  App.method request = "POST" →
  blank (question_field request) = false →
  let q := Py.strip (question_field request) in
  ∃ context : gmap string (option pystr),
    App.index None request w
      = (Ret (App.render_template "index.html" context), w)
    ∧ context !! "answer"
      = Some (Some (py "ERROR: LLM Client failed to initialize. Check GEMINI_API_KEY setting."))
    ∧ context !! "original_question" = Some (Some q)
    ∧ context !! "processed_question" = Some (Some (App.basic_preprocess q))
    ∧ context !! "user_question" = Some (Some q).
Proof.
  intros Hpost Hfield q. rewrite index_run, bool_decide_eq_true_2 by done.
  rewrite Hfield. cbv zeta. fold q. eexists. split; [reflexivity |].
  unfold answered_context.
  repeat split; repeat (rewrite lookup_insert_ne by done); apply lookup_insert_eq.
Qed.

Lemma X2_witness :
  App.method (post (py " Why? ")) = "POST"
  ∧ blank (question_field (post (py " Why? "))) = false
  ∧ ∃ context : gmap string (option pystr),
      @App.index sample_tables None (post (py " Why? ")) quiet_world
        = (Ret (App.render_template "index.html" context), quiet_world)
      ∧ context !! "answer"
        = Some (Some (py "ERROR: LLM Client failed to initialize. Check GEMINI_API_KEY setting.")).
Proof.
  split; [reflexivity |]. split; [reflexivity |].
  destruct (@X2_index_without_client sample_tables (post (py " Why? ")) quiet_world
              eq_refl eq_refl) as (context & Hrun & Hans & _).
  exists context. by split.
Defined.

(** X3.  With a client, a POST of a question that is not blank sends
    exactly the request for the trimmed question.  Unless the call raises
    outside [Exception] it gets a page: the answer is the response text
    when the call succeeds, "An API Error occurred: " with the message for
    the service's API error, and "An unexpected error occurred: " with the
    string form for any other [Exception], and the form field keeps the
    trimmed question.  An exception outside [Exception] is raised by the
    handler, and no page is rendered. *)
Theorem X3_index_answer {tbl : Py.CaseTables}
    (client : Client) (request : App.HttpRequest) (w : world) :
  App.method request = "POST" →
  blank (question_field request) = false →
  let q := Py.strip (question_field request) in
  (App.index (Some client) request w).2 = sent w (request_for q)
  ∧ match client (request_for q) with
    | Raise (NonException m) =>
        (App.index (Some client) request w).1 = Raise (NonException m)
    | outcome =>
        ∃ context : gmap string (option pystr),
          (App.index (Some client) request w).1
            = Ret (App.render_template "index.html" context)
          ∧ context !! "answer"
            = Some (Some
                match outcome with
                | Ret response => text response
                | Raise e =>
                    (if isinstance_APIError e then py "An API Error occurred: "
                     else py "An unexpected error occurred: ") ++ str_of_exn e
                end)
          ∧ context !! "user_question" = Some (Some q)
    end.
Proof.
  intros Hpost Hfield q. rewrite index_run, bool_decide_eq_true_2 by done.
  rewrite Hfield. cbv zeta. fold q.
  assert (Hctx : ∀ answer,
    ∃ context : gmap string (option pystr),
      Ret (App.render_template "index.html" (answered_context q answer))
        = Ret (App.render_template "index.html" context)
      ∧ context !! "answer" = Some (Some answer)
      ∧ context !! "user_question" = Some (Some q)).
  { intros answer. eexists. split; [reflexivity |]. unfold answered_context. split.
    + repeat (rewrite lookup_insert_ne by done). apply lookup_insert_eq.
    + apply lookup_insert_eq. }
  destruct (client (request_for q)) as [r | [m | m | m]];
    cbn [answer_for_outcome fst snd isinstance_APIError str_of_exn];
    (split; [reflexivity |]); try apply Hctx; reflexivity.
Qed.

Lemma X3_witness :
  App.method (post (py " Why? ")) = "POST"
  ∧ blank (question_field (post (py " Why? "))) = false
  ∧ (@App.index sample_tables (Some stub_broken) (post (py " Why? ")) quiet_world).2
    = sent quiet_world (request_for (Py.strip (question_field (post (py " Why? ")))))
  ∧ ∃ context : gmap string (option pystr),
      (@App.index sample_tables (Some stub_broken) (post (py " Why? ")) quiet_world).1
        = Ret (App.render_template "index.html" context)
      ∧ context !! "answer"
        = Some (Some (py "An unexpected error occurred: " ++ py "connection reset")).
Proof.
  split; [reflexivity |]. split; [reflexivity |].
  destruct (@X3_index_answer sample_tables stub_broken (post (py " Why? ")) quiet_world
              eq_refl eq_refl) as (Hworld & context & Hrun & Hans & _).
  split; [exact Hworld |].
  exists context. split; [exact Hrun | exact Hans].
Defined.

(** X4.  The handler raises only when the service call raises outside
    [Exception], which can happen only for a POST of a question that is
    not blank with a client; in every other case it renders "index.html".
    Either way it sends at most one request (the one for the trimmed
    question), and it neither reads standard input nor writes standard
    output. *)
Theorem X4_index_total {tbl : Py.CaseTables}
    (client : option Client) (request : App.HttpRequest) (w : world) :
  let q := Py.strip (question_field request) in
  let run := App.index client request w in
  ((∃ context : gmap string (option pystr),
      run.1 = Ret (App.render_template "index.html" context))
   ∨ (∃ (c : Client) (e : exn),
        client = Some c
        ∧ App.method request = "POST"
        ∧ blank (question_field request) = false
        ∧ c (request_for q) = Raise e
        ∧ isinstance_Exception e = false
        ∧ run.1 = Raise e))
  ∧ stdin run.2 = stdin w
  ∧ stdout run.2 = stdout w
  ∧ (calls run.2 = calls w ∨ calls run.2 = calls w ++ [request_for q]).
Proof.
  intros q run. subst run. rewrite index_run.
  destruct (bool_decide_reflect (App.method request = "POST")) as [Hpost | _];
    [| by eauto 10].
  destruct (blank (question_field request)) eqn:Hfield; [by eauto 10 |].
  cbv zeta. fold q. destruct client as [c |]; [| by eauto 10].
  destruct (answer_for_outcome (c (request_for q))) as [answer | e] eqn:Hout;
    cbn [fst snd sent stdin stdout calls].
  - split; [left; by eexists |]. by eauto.
  - apply answer_for_outcome_raise in Hout as [Hraise Hexc].
    split; [right; exists c, e; by repeat split |]. by eauto.
Qed.

(** X5.  Initialising the web application sends no request and reads no
    input.  It raises only when the credential is set and the SDK's
    constructor raises outside [Exception]; otherwise it leaves a client,
    which is [Some c] exactly when the credential is set and not empty and
    the constructor returned [c], and [None] in every other case. *)
Theorem X5_init_client_characterised
    (genai_Client : pystr → result Client) (API_KEY : option pystr) (w : world) :
  let run := App.init_client genai_Client API_KEY w in
  calls run.2 = calls w
  ∧ stdin run.2 = stdin w
  ∧ ((∃ client : option Client,
        run.1 = Ret client
        ∧ (∀ c, client = Some c
                ↔ truthy API_KEY = true ∧ genai_Client (default [] API_KEY) = Ret c))
     ∨ (∃ e : exn,
          truthy API_KEY = true
          ∧ genai_Client (default [] API_KEY) = Raise e
          ∧ isinstance_Exception e = false
          ∧ run.1 = Raise e)).
Proof.
  intros run. subst run. rewrite init_client_run. cbv zeta.
  destruct (truthy API_KEY).
  - destruct (genai_Client (default [] API_KEY)) as [c0 | e].
    + do 2 (split; [reflexivity |]). left. exists (Some c0).
      split; [reflexivity |]. intros c. split.
      * by intros [= ->].
      * by intros [_ [= ->]].
    + destruct (isinstance_Exception e) eqn:Hexc.
      * do 2 (split; [reflexivity |]). left. exists None.
        split; [reflexivity |]. intros c. split; [done | by intros [_ ?]].
      * do 2 (split; [reflexivity |]). right. by exists e.
  - do 2 (split; [reflexivity |]). left. exists None.
    split; [reflexivity |]. intros c. split; [done | by intros [? _]].
Qed.

(** X6.  At end of input the console entry point raises the [EOFError] of
    [input]: it has printed the banner and the prompt, and has sent no
    request. *)
Theorem X6_main_at_end_of_input {tbl : Py.CaseTables} (client : Client) (w : world) :
  stdin w = [] →
  ∃ (e : exn) (w' : world),
    CLI.main client w = (Raise e, w')
    ∧ calls w' = calls w
    ∧ stdout w' = stdout w ++
        [ py "--- LLM Q&A Command-Line Interface ---" ++ newline;
          newline ++ py "Enter your question: " ].
Proof.
  destruct w as [inp out sent0]. cbn [stdin]. intros ->.
  rewrite main_eof. by eauto.
Qed.

Lemma X6_witness :
  stdin quiet_world = []
  ∧ ∃ (e : exn) (w' : world),
      @CLI.main sample_tables stub_paris quiet_world = (Raise e, w')
      ∧ calls w' = calls quiet_world
      ∧ stdout w' = stdout quiet_world ++
          [ py "--- LLM Q&A Command-Line Interface ---" ++ newline;
            newline ++ py "Enter your question: " ].
Proof.
  split; [reflexivity |].
  exact (@X6_main_at_end_of_input sample_tables stub_paris quiet_world eq_refl).
Defined.

Lemma blank_remove_punctuation s :
  blank (Spec.remove_punctuation s) = true
  ↔ Forall (λ c, c ∈ Py.punctuation ∨ Py.isspace c = true) s.
Proof.
  unfold Spec.remove_punctuation. rewrite blank_Forall.
  rewrite !Forall_forall. split.
  - intros H c Hc. destruct (decide (c ∈ Py.punctuation)) as [Hp | Hp]; [by left |].
    right. apply H. by apply list_elem_of_filter.
  - intros H c Hc. apply list_elem_of_filter in Hc as [Hp Hc].
    by destruct (H c Hc).
Qed.

Lemma basic_preprocess_nil_iff {tbl : Py.CaseTables} s :
  CLI.basic_preprocess s = []
  ↔ Forall (λ c, c ∈ Py.punctuation ∨ Py.isspace c = true) (Py.lower s).
Proof.
  rewrite basic_preprocess_unfold.
  rewrite join_nil_iff by apply tokens_are_tokens.
  by rewrite tokens_nil_iff, blank_remove_punctuation.
Qed.

(** X7.  The normalized text is empty exactly when the lower-cased input
    holds nothing but punctuation and whitespace.  In both files. *)
Theorem X7_normalized_empty_iff {tbl : Py.CaseTables} (s : pystr) :
  (CLI.basic_preprocess s = []
   ↔ Forall (λ c, c ∈ Py.punctuation ∨ Py.isspace c = true) (Py.lower s))
  ∧ (App.basic_preprocess s = []
     ↔ Forall (λ c, c ∈ Py.punctuation ∨ Py.isspace c = true) (Py.lower s)).
Proof.
  split; [apply basic_preprocess_nil_iff |].
  rewrite app_basic_preprocess_unfold, <- basic_preprocess_unfold.
  apply basic_preprocess_nil_iff.
Qed.

Lemma lower_punctuation_or_space {tbl : Py.CaseTables} s :
  Forall (λ c, c ∈ Py.punctuation ∨ (c < 128 ∧ Py.isspace c = true)) s →
  Py.lower s = s.
Proof.
  intros Hs. unfold Py.lower. rewrite do_lower_ascii.
  - induction Hs as [| c s Hc Hs IH]; [done |].
    rewrite fmap_cons, IH. f_equal. apply ascii_tolower_keeps.
    destruct Hc as [Hp | [Hlt Hsp]]; [by apply punctuation_ascii |].
    by apply ascii_space_not_upper.
  - eapply Forall_impl; [exact Hs |]. intros c [Hp | [Hlt _]]; [| done].
    by apply punctuation_ascii.
Qed.

(** X8.  The console entry point tests the raw line, not the normalized
    one: a line that is not blank but holds only ASCII punctuation and
    whitespace is sent to the service as it is, while the normalized text
    it prints is empty. *)
Theorem X8_punctuation_only_line_is_sent {tbl : Py.CaseTables}
    (client : Client) (line : pystr) (rest out : list pystr)
    (sent0 : list GenerateContentRequest) :
  blank line = false →
  Forall (λ c, c ∈ Py.punctuation ∨ (c < 128 ∧ Py.isspace c = true)) line →
  let after := (CLI.main client {| stdin := line :: rest; stdout := out; calls := sent0 |}).2 in
  CLI.basic_preprocess line = []
  ∧ calls after = sent0 ++ [request_for line]
  ∧ py "Preprocessed Text: " ++ newline ∈ stdout after.
Proof.
  intros Hline Hchars after.
  assert (Hnil : CLI.basic_preprocess line = []).
  { apply basic_preprocess_nil_iff. rewrite lower_punctuation_or_space by done.
    eapply Forall_impl; [exact Hchars |]. intros c [Hp | [_ Hsp]]; [by left | by right]. }
  split; [exact Hnil |].
  subst after. rewrite main_run, Hline, Hnil.
  destruct (answer_for_outcome (client (request_for line))) as [answer | e];
    cbn [snd calls stdout]; (split; [reflexivity |]);
    apply elem_of_app; right; do 3 right; left.
Qed.

Lemma X8_witness :
  blank (py " ?! ") = false
  ∧ Forall (λ c, c ∈ Py.punctuation ∨ (c < 128 ∧ Py.isspace c = true)) (py " ?! ")
  ∧ @CLI.basic_preprocess sample_tables (py " ?! ") = []
  ∧ calls (@CLI.main sample_tables stub_paris
             {| stdin := [py " ?! "]; stdout := []; calls := [] |}).2
    = [request_for (py " ?! ")].
Proof.
  assert (Hchars : Forall (λ c, c ∈ Py.punctuation ∨ (c < 128 ∧ Py.isspace c = true))
                     (py " ?! ")).
  { apply (bool_decide_unpack _). vm_compute. exact I. }
  split; [reflexivity |]. split; [exact Hchars |].
  destruct (@X8_punctuation_only_line_is_sent sample_tables stub_paris (py " ?! ")
              [] [] [] eq_refl Hchars) as (Hnil & Hcalls & _).
  split; [exact Hnil | exact Hcalls].
Defined.

Lemma basic_preprocess_ascii {tbl : Py.CaseTables} s :
  Forall (λ c, c < 128) s →
  CLI.basic_preprocess s
  = Py.join [32] (Spec.tokens (Spec.remove_punctuation (Py.ascii_tolower <$> s))).
Proof.
  intros Hs. rewrite basic_preprocess_unfold. unfold Py.lower.
  by rewrite do_lower_ascii.
Qed.

(** X9.  On ASCII text the Normalizer does not depend on the Unicode case
    tables: every letter A-Z is replaced by its lower-case letter, the
    punctuation is removed and the tokens are joined, whatever tables the
    interpreter carries.  In both files. *)
Theorem X9_ascii_normalization (tbl tbl' : Py.CaseTables) (s : pystr) :
  Forall (λ c, c < 128) s →
  @CLI.basic_preprocess tbl s
    = Py.join [32] (Spec.tokens (Spec.remove_punctuation (Py.ascii_tolower <$> s)))
  ∧ @CLI.basic_preprocess tbl s = @CLI.basic_preprocess tbl' s
  ∧ @App.basic_preprocess tbl s = @App.basic_preprocess tbl' s.
Proof.
  intros Hs. split; [by apply basic_preprocess_ascii |].
  split.
  - by rewrite !basic_preprocess_ascii.
  - rewrite !app_basic_preprocess_unfold, <- !basic_preprocess_unfold.
    by rewrite !basic_preprocess_ascii.
Qed.

Lemma X9_witness :
  Forall (λ c, c < 128) (py "Hello, World!!")
  ∧ @CLI.basic_preprocess sample_tables (py "Hello, World!!")
    = @CLI.basic_preprocess crude_tables (py "Hello, World!!")
  ∧ @App.basic_preprocess sample_tables (py "Hello, World!!")
    = @App.basic_preprocess crude_tables (py "Hello, World!!").
Proof.
  assert (Hs : Forall (λ c, c < 128) (py "Hello, World!!")).
  { apply (bool_decide_unpack _). vm_compute. exact I. }
  split; [exact Hs |].
  destruct (X9_ascii_normalization sample_tables crude_tables (py "Hello, World!!") Hs)
    as (_ & Hcli & Happ).
  split; [exact Hcli | exact Happ].
Defined.

Lemma basic_preprocess_length {tbl : Py.CaseTables} s :
  (length (CLI.basic_preprocess s) ≤ length (Py.lower s))%nat.
Proof.
  rewrite basic_preprocess_unfold.
  pose proof (join_tokens_length (Spec.remove_punctuation (Py.lower s))) as H1.
  pose proof (filter_length_le (Py.lower s)) as H2. lia.
Qed.

(** X10.  Normalizing never lengthens: the normalized text has at most as
    many characters as the lower-cased input, and for ASCII input at most
    as many as the input itself. *)
Theorem X10_normalized_length {tbl : Py.CaseTables} (s : pystr) :
  (length (CLI.basic_preprocess s) ≤ length (Py.lower s))%nat
  ∧ (length (App.basic_preprocess s) ≤ length (Py.lower s))%nat
  ∧ (Forall (λ c, c < 128) s →
     (length (CLI.basic_preprocess s) ≤ length s)%nat
     ∧ (length (App.basic_preprocess s) ≤ length s)%nat).
Proof.
  assert (Happ : App.basic_preprocess s = CLI.basic_preprocess s).
  { by rewrite app_basic_preprocess_unfold, basic_preprocess_unfold. }
  rewrite Happ. pose proof (basic_preprocess_length s) as Hlen.
  split; [exact Hlen |]. split; [exact Hlen |].
  intros Hs. unfold Py.lower in Hlen.
  rewrite do_lower_ascii, length_fmap in Hlen by done. by split.
Qed.

Lemma X10_witness :
  Forall (λ c, c < 128) (py "Hello, World!!")
  ∧ (length (@CLI.basic_preprocess sample_tables (py "Hello, World!!"))
     ≤ length (py "Hello, World!!"))%nat
  ∧ (length (@App.basic_preprocess sample_tables (py "Hello, World!!"))
     ≤ length (py "Hello, World!!"))%nat.
Proof.
  assert (Hs : Forall (λ c, c < 128) (py "Hello, World!!")).
  { apply (bool_decide_unpack _). vm_compute. exact I. }
  split; [exact Hs |].
  destruct (@X10_normalized_length sample_tables (py "Hello, World!!")) as (_ & _ & H).
  exact (H Hs).
Defined.

(** X11.  What the web handler sends for a POST is the submitted field
    with whitespace taken off its two ends and nothing else changed: the
    field is the payload between two blank texts, and the payload neither
    starts nor ends with whitespace. *)
Theorem X11_web_payload_is_trimmed_field {tbl : Py.CaseTables}
    (client : Client) (request : App.HttpRequest) (w : world) :
  App.method request = "POST" →
  blank (question_field request) = false →
  ∃ q lead trail : pystr,
    calls (App.index (Some client) request w).2 = calls w ++ [request_for q]
    ∧ contents (request_for q) = q
    ∧ question_field request = lead ++ q ++ trail
    ∧ blank lead = true
    ∧ blank trail = true
    ∧ (∀ c, head q = Some c → Py.isspace c = false)
    ∧ (∀ c, last q = Some c → Py.isspace c = false).
Proof.
  intros Hpost Hfield.
  destruct (strip_decomp (question_field request)) as (lead & trail & E & Hpre & Hpostb).
  exists (Py.strip (question_field request)), lead, trail.
  rewrite index_run, bool_decide_eq_true_2 by done. rewrite Hfield.
  cbv zeta.
  split.
  { by destruct (answer_for_outcome
                   (client (request_for (Py.strip (question_field request))))). }
  split; [reflexivity |]. split; [exact E |].
  split; [exact Hpre |]. split; [exact Hpostb |].
  split; [apply strip_head | apply strip_last].
Qed.

Lemma X11_witness :
  App.method (post (py "  What is AI?  ")) = "POST"
  ∧ blank (question_field (post (py "  What is AI?  "))) = false
  ∧ ∃ q lead trail : pystr,
      calls (@App.index sample_tables (Some stub_paris) (post (py "  What is AI?  "))
               quiet_world).2 = calls quiet_world ++ [request_for q]
      ∧ question_field (post (py "  What is AI?  ")) = lead ++ q ++ trail
      ∧ blank lead = true
      ∧ blank trail = true.
Proof.
  split; [reflexivity |]. split; [reflexivity |].
  destruct (@X11_web_payload_is_trimmed_field sample_tables stub_paris
              (post (py "  What is AI?  ")) quiet_world eq_refl eq_refl)
    as (q & lead & trail & Hcalls & _ & E & Hpre & Hpost & _).
  exists q, lead, trail. by repeat split.
Defined.

(** X12.  The console script contacts the service only after everything
    went well: either it sends nothing, or the credential is set and not
    empty, the client was built, a line that is not blank was read, and
    exactly one request, for that line, was sent. *)
Theorem X12_script_contacts_service_only_when {tbl : Py.CaseTables}
    (genai_Client : pystr → result Client) (API_KEY : option pystr) (w : world) :
  let after := (CLI.script genai_Client API_KEY w).2 in
  calls after = calls w
  ∨ (truthy API_KEY = true
     ∧ ∃ (client : Client) (line : pystr) (rest : list pystr),
         genai_Client (default [] API_KEY) = Ret client
         ∧ stdin w = line :: rest
         ∧ blank line = false
         ∧ calls after = calls w ++ [request_for line]).
Proof.
  cbv zeta. rewrite script_run.
  destruct (truthy API_KEY) eqn:Hkey; [| by left].
  destruct (genai_Client (default [] API_KEY)) as [client | e] eqn:Hctor.
  - destruct w as [inp out sent0]. destruct inp as [| line rest].
    + left. by rewrite main_eof.
    + rewrite main_run. destruct (blank line) eqn:Hline; [by left |].
      right. split; [reflexivity |]. exists client, line, rest.
      split; [reflexivity |]. split; [reflexivity |]. split; [exact Hline |].
      by destruct (answer_for_outcome (client (request_for line))).
  - left. by destruct (isinstance_Exception e).
Qed.

(** X13.  The normal forms: a text is left as it is by the Normalizer when
    lower-casing leaves its characters alone, it holds no punctuation, its
    only whitespace characters are spaces, none of them at either end and
    no two in a row.  In both files. *)
Theorem X13_normal_text_is_fixed {tbl : Py.CaseTables} (r : pystr) :
  Forall settled r →
  Forall (λ c, c ∉ Py.punctuation) r →
  (∀ c, c ∈ r → Py.isspace c = true → c = 32) →
  (∀ c, head r = Some c → Py.isspace c = false) →
  (∀ c, last r = Some c → Py.isspace c = false) →
  no_adjacent_whitespace r →
  CLI.basic_preprocess r = r ∧ App.basic_preprocess r = r.
Proof.
  intros Hset Hpun Hws Hhead Hlast Hadj.
  rewrite app_basic_preprocess_unfold, basic_preprocess_unfold.
  unfold Py.lower. rewrite do_lower_settled by done.
  rewrite remove_punctuation_id by done.
  rewrite join_tokens_lstrip by done.
  by rewrite lstrip_id.
Qed.

Lemma X13_witness :
  Forall (@settled sample_tables) (py "hello world")
  ∧ Forall (λ c, c ∉ Py.punctuation) (py "hello world")
  ∧ (∀ c, c ∈ py "hello world" → Py.isspace c = true → c = 32)
  ∧ (∀ c, head (py "hello world") = Some c → Py.isspace c = false)
  ∧ (∀ c, last (py "hello world") = Some c → Py.isspace c = false)
  ∧ no_adjacent_whitespace (py "hello world")
  ∧ @CLI.basic_preprocess sample_tables (py "hello world") = py "hello world"
  ∧ @App.basic_preprocess sample_tables (py "hello world") = py "hello world".
Proof.
  assert (H1 : Forall (@settled sample_tables) (py "hello world")).
  { change (Forall (λ c, c ≠ 0x3A3 ∧ @Py.to_lower_full sample_tables c = [c])
              (py "hello world")).
    apply (bool_decide_unpack _). vm_compute. exact I. }
  assert (H2 : Forall (λ c, c ∉ Py.punctuation) (py "hello world")).
  { apply (bool_decide_unpack _). vm_compute. exact I. }
  assert (H3 : ∀ c, c ∈ py "hello world" → Py.isspace c = true → c = 32).
  { apply (proj1 (Forall_forall (λ c, Py.isspace c = true → c = 32) _)).
    apply (bool_decide_unpack _). vm_compute. exact I. }
  assert (H4 : ∀ c, head (py "hello world") = Some c → Py.isspace c = false).
  { intros c [= <-]. reflexivity. }
  assert (H5 : ∀ c, last (py "hello world") = Some c → Py.isspace c = false).
  { intros c [= <-]. reflexivity. }
  assert (H6 : no_adjacent_whitespace (py "hello world")).
  { apply (spaced_lookup _ false). reflexivity. }
  do 6 (split; [assumption |]).
  exact (@X13_normal_text_is_fixed sample_tables (py "hello world") H1 H2 H3 H4 H5 H6).
Defined.
